(** * Publication of the RNB exports on data.gouv.fr

    A shallow embedding of [app/batid/services/data_gouv_publication.py]:
    the per-area pipeline (scratch directory, CSV extraction, archive and
    SHA-1, multipart sizing, create-or-update on the portal, cleanup) and
    the task-signature glue, followed by the properties established
    about them. *)

From Stdlib Require Import ZArith List Ascii String Lia Bool.
From Stdlib Require Strings.Byte.
From Equations Require Import Equations.
From Equations.Prop Require Import Logic.
From stdpp Require Import base option gmap strings list fin_maps.

Import ListNotations.
Local Open Scope string_scope.
Local Open Scope Z_scope.

(** ** Python strings

    A [str] is embedded as a [string] holding its UTF-8 encoding; equality
    of two [str] values is equality of the encodings. *)

Module PyStr.

(** [str == str] *)
Definition eqb (a b : string) : bool := String.eqb a b.

(** [frag in s] for two [str] values: [frag] occurs in [s] at some
    offset. *)
Fixpoint contains (frag s : string) : bool :=
  String.prefix frag s ||
  match s with
  | EmptyString => false
  | String _ s' => contains frag s'
  end.

(** [str(n)] for a non-negative [int]. *)
Definition digit (d : Z) : ascii := ascii_of_nat (48 + Z.to_nat d).

Fixpoint str_of_nat_fuel (fuel : nat) (n : Z) (acc : string) : string :=
  match fuel with
  | O => acc
  | S fuel' =>
      let acc' := String (digit (n mod 10)) acc in
      if n / 10 =? 0 then acc' else str_of_nat_fuel fuel' (n / 10) acc'
  end.

Definition str_of_int (n : Z) : string :=
  str_of_nat_fuel (S (Z.to_nat (Z.log2 n))) n EmptyString.

End PyStr.

(** ** [sql_query]

    The f-string template is cut at its two placeholders; [sql_head],
    [sql_mid] and [sql_tail] are the literal text around [{dpt_join}] and
    [{dpt_where}]. *)

Definition sql_head : string :=
"
    COPY (
        select bdg.rnb_id as rnb_id,
        ST_AsEWKT(bdg.point) as point,
        ST_AsEWKT(bdg.shape) as shape,
        bdg.status as status,
        bdg.ext_ids as ext_ids,
        coalesce(json_agg(
             json_build_object(
                    'cle_interop_ban', addr.id,
                    'street_number', addr.street_number,
                    'street_rep', addr.street_rep,
                    'street', addr.street,
                    'city_zipcode', addr.city_zipcode,
                    'city_name', addr.city_name
                )

        ) FILTER (WHERE addr.id IS NOT NULL), '[]'::json) AS addresses,
        (
           SELECT json_agg(json_build_object('id', p.id, 'bdg_cover_ratio',
               CASE
                   WHEN ST_GeometryType(bdg.shape) = 'ST_Point' THEN 1.0
                   WHEN ST_GeometryType(bdg.shape) IN ('ST_Polygon', 'ST_MultiPolygon') THEN
                       CASE
                           WHEN ST_Area(bdg.shape) > 0 THEN
                               ST_Area(ST_Intersection(bdg.shape, p.shape)) / ST_Area(bdg.shape)
                           ELSE 0.0
                       END
                   ELSE 0.0
               END
           ))
           FROM batid_plot p
           WHERE ST_Intersects(p.shape, bdg.shape)
       ) AS plots
        FROM batid_building bdg
        LEFT JOIN batid_buildingaddressesreadonly bdg_addr ON bdg_addr.building_id = bdg.id
        LEFT JOIN batid_address addr ON addr.id = bdg_addr.address_id
        ".

Definition sql_mid : string :=
"
        WHERE is_active
        ".

Definition sql_tail : string :=
"
        GROUP BY bdg.rnb_id, bdg.point, bdg.shape, bdg.status, bdg.ext_ids
    )  TO STDOUT WITH CSV HEADER DELIMITER ';'
    ".

Definition dpt_join_fragment : string :=
  " LEFT JOIN batid_department_subdivided AS dpt ON ST_Intersects(dpt.shape, bdg.point)".

Definition dpt_where_fragment (code_area : string) : string :=
  " AND dpt.code = '" ++ code_area ++ "'".

Definition sql_query (code_area : string) : string :=
  let '(dpt_where, dpt_join) :=
    if PyStr.eqb code_area "nat" then ("", "")
    else (dpt_where_fragment code_area, dpt_join_fragment) in
  sql_head ++ dpt_join ++ sql_mid ++ dpt_where ++ sql_tail.

(** ** SHA-1 ([hashlib.sha1])

    Words are 32-bit unsigned integers carried in [Z]; every operation
    reduces modulo [2^32].  [Hasher] is the streaming object returned by
    [hashlib.sha1()]: chaining value, the bytes of the current incomplete
    block, and the number of bytes fed so far. *)

Module SHA1.

Import Strings.Byte.
Local Open Scope list_scope.

Definition byte_val (b : byte) : Z := Z.of_N (Byte.to_N b).

Definition byte_of_Z (z : Z) : byte :=
  match Byte.of_N (Z.to_N (z mod 256)) with
  | Some b => b
  | None => x00
  end.

Definition wrap32 (x : Z) : Z := x mod 2 ^ 32.
Definition add32 (x y : Z) : Z := wrap32 (x + y).
Definition not32 (x : Z) : Z := Z.lxor x 0xFFFFFFFF.
Definition rotl32 (n : Z) (x : Z) : Z :=
  wrap32 (Z.lor (Z.shiftl x n) (Z.shiftr x (32 - n))).

Definition chaining : Type := Z * Z * Z * Z * Z.

Definition iv : chaining :=
  (0x67452301, 0xEFCDAB89, 0x98BADCFE, 0x10325476, 0xC3D2E1F0).

(** Big-endian 32-bit words of a block. *)
Fixpoint be_words (bs : list byte) : list Z :=
  match bs with
  | b0 :: b1 :: b2 :: b3 :: rest =>
      (Z.shiftl (byte_val b0) 24 + Z.shiftl (byte_val b1) 16
       + Z.shiftl (byte_val b2) 8 + byte_val b3) :: be_words rest
  | _ => []
  end.

(** Message schedule; [recent] holds the words produced so far, newest
    first, so that W[t-3], W[t-8], W[t-14], W[t-16] sit at offsets
    2, 7, 13 and 15. *)
Fixpoint extend (n : nat) (recent : list Z) : list Z :=
  match n with
  | O => recent
  | S n' =>
      let w := rotl32 1 (Z.lxor (Z.lxor (nth 2 recent 0) (nth 7 recent 0))
                                (Z.lxor (nth 13 recent 0) (nth 15 recent 0))) in
      extend n' (w :: recent)
  end.

Definition schedule (block : list byte) : list Z :=
  rev (extend 64 (rev (be_words block))).

Definition f (t : nat) (b c d : Z) : Z :=
  if (t <? 20)%nat then Z.lor (Z.land b c) (Z.land (not32 b) d)
  else if (t <? 40)%nat then Z.lxor (Z.lxor b c) d
  else if (t <? 60)%nat then Z.lor (Z.lor (Z.land b c) (Z.land b d)) (Z.land c d)
  else Z.lxor (Z.lxor b c) d.

Definition K (t : nat) : Z :=
  if (t <? 20)%nat then 0x5A827999
  else if (t <? 40)%nat then 0x6ED9EBA1
  else if (t <? 60)%nat then 0x8F1BBCDC
  else 0xCA62C1D6.

Definition round (t : nat) (w : Z) (v : chaining) : chaining :=
  let '(a, b, c, d, e) := v in
  (add32 (add32 (add32 (add32 (rotl32 5 a) (f t b c d)) e) (K t)) w,
   a, rotl32 30 b, c, d).

Fixpoint rounds (t : nat) (ws : list Z) (v : chaining) : chaining :=
  match ws with
  | [] => v
  | w :: ws' => rounds (S t) ws' (round t w v)
  end.

(** One application of the compression function to a 64-byte block. *)
Definition compress (h : chaining) (block : list byte) : chaining :=
  let '(h0, h1, h2, h3, h4) := h in
  let '(a, b, c, d, e) := rounds 0 (schedule block) h in
  (add32 h0 a, add32 h1 b, add32 h2 c, add32 h3 d, add32 h4 e).

Definition BLOCK : nat := 64.

Record Hasher : Type := mkHasher {
  chain : chaining;
  pending : list byte;   (* fewer than 64 bytes *)
  count : Z              (* bytes fed so far *)
}.

(** [hashlib.sha1()] *)
Definition new : Hasher := mkHasher iv [] 0.

(** Feeding one byte: it joins the pending block, which is compressed
    as soon as it is full. *)
Definition feed (hp : chaining * list byte) (x : byte) : chaining * list byte :=
  let '(h, p) := hp in
  let p' := p ++ [x] in
  if (length p' =? BLOCK)%nat then (compress h p', []) else (h, p').

(** [h.update(data)] *)
Definition update (s : Hasher) (data : list byte) : Hasher :=
  let '(h, p) := fold_left feed data (chain s, pending s) in
  mkHasher h p (count s + Z.of_nat (length data)).

(** Padding for a message of [n] bytes: 0x80, zeros up to 56 modulo 64,
    then the bit length on 64 bits, big-endian. *)
Definition length_bytes (bits : Z) : list byte :=
  map (fun i => byte_of_Z (Z.shiftr bits (8 * i))) [7; 6; 5; 4; 3; 2; 1; 0].

Definition padding (n : Z) : list byte :=
  x80 :: repeat x00 (Z.to_nat ((55 - n) mod 64))
      ++ length_bytes ((8 * n) mod 2 ^ 64).

Definition hex_digit (d : Z) : ascii :=
  if d <? 10 then ascii_of_nat (48 + Z.to_nat d)
  else ascii_of_nat (87 + Z.to_nat d).

Definition hex_word (w : Z) : string :=
  fold_right (fun i acc => String (hex_digit (Z.shiftr w (4 * i) mod 16)) acc)
             EmptyString [7; 6; 5; 4; 3; 2; 1; 0].

Definition hex_chaining (h : chaining) : string :=
  let '(h0, h1, h2, h3, h4) := h in
  (hex_word h0 ++ hex_word h1 ++ hex_word h2 ++ hex_word h3 ++ hex_word h4)%string.

(** [h.hexdigest()]: pads a copy of the state and prints the chaining
    value as 40 lowercase hexadecimal digits. *)
Definition hexdigest (s : Hasher) : string :=
  hex_chaining (fst (fold_left feed (padding (count s)) (chain s, pending s))).

(** Reference definition of the digest (FIPS 180-4, one pass): pad the
    whole message, cut it into 64-byte blocks, fold the compression
    function over them. *)
Equations? process_blocks (h : chaining) (data : list byte) : chaining
  by wf (length data) lt :=
  process_blocks h data with inspect (BLOCK <=? length data)%nat := {
    | exist _ true _ := process_blocks (compress h (firstn BLOCK data)) (skipn BLOCK data);
    | exist _ false _ := h }.
Proof.
  rewrite length_skipn. apply Nat.leb_le in e. unfold BLOCK in *. lia.
Qed.

Definition sha1_single_pass (contents : list byte) : string :=
  hex_chaining
    (process_blocks iv (contents ++ padding (Z.of_nat (length contents)))).

End SHA1.

Definition bytes_of_string (s : string) : list Byte.byte := list_byte_of_string s.

(** ** [sha1sum]: the read loop

    The file is the sequence of bytes not yet read; [b] is the
    [bytearray] behind the memoryview. *)

Definition BUFFER_SIZE : nat := 128 * 1024.

(** [f.readinto(mv)] on an unbuffered file: up to [len(mv)] bytes are
    copied to the front of the buffer, the rest of the buffer keeps what
    it held; returns the count, the buffer and the advanced file. *)
Definition readinto (f b : list Byte.byte)
  : nat * list Byte.byte * list Byte.byte :=
  let chunk := firstn (length b) f in
  (length chunk, (chunk ++ skipn (length chunk) b)%list, skipn (length b) f).

(** [while n := f.readinto(mv): h.update(mv[:n])] *)
Equations? read_loop (h : SHA1.Hasher) (b f : list Byte.byte) : SHA1.Hasher
  by wf (length f) lt :=
  read_loop h b f with inspect (readinto f b) := {
    | exist _ (O, _, _) _ := h;
    | exist _ (S n, b', f') e :=
        read_loop (SHA1.update h (firstn (S n) b')) b' f' }.
Proof.
  unfold readinto in e. injection e as Hn _ Hf. subst f'.
  rewrite length_skipn. rewrite length_firstn in Hn. lia.
Qed.

(** The digest [sha1sum] returns for a file holding [contents]. *)
Definition sha1sum_of (contents : list Byte.byte) : string :=
  let h := SHA1.new in
  let b := repeat Byte.x00 BUFFER_SIZE in
  SHA1.hexdigest (read_loop h b contents).

(** ** Exceptions and results *)

Inductive exn : Type :=
| UnboundLocalError (name : string)
| FileExistsError (path : string)
| FileNotFoundError (path : string)
| OverflowError (msg : string)
| ZeroDivisionError (msg : string)
| ValueError (msg : string)
| PlainException (msg : string)      (* [raise Exception(msg)] *)
| Foreign (cls msg : string).        (* raised inside a collaborator *)

(** [str(e)] *)
Definition str_exn (e : exn) : string :=
  match e with
  | UnboundLocalError name =>
      "cannot access local variable '" ++ name
      ++ "' where it is not associated with a value"
  | FileExistsError path => "[Errno 17] File exists: '" ++ path ++ "'"
  | FileNotFoundError path => "[Errno 2] No such file or directory: '" ++ path ++ "'"
  | OverflowError msg | ZeroDivisionError msg | ValueError msg
  | PlainException msg | Foreign _ msg => msg
  end.

Inductive result (A : Type) : Type :=
| Ok (a : A)
| Raised (e : exn).
Arguments Ok {A} a.
Arguments Raised {A} e.

Definition rbind {A B : Type} (r : result A) (k : A -> result B) : result B :=
  match r with
  | Ok a => k a
  | Raised e => Raised e
  end.

(** ** Binary64 arithmetic

    Python's [float] restricted to the non-negative values, which is all
    the part-size computation meets.  A finite value is [m * 2^e]; every
    operation computes the exact rational result and rounds it once, to
    nearest with ties to even, on 53 significant bits, with gradual
    underflow at exponent -1074 and overflow to infinity at [2^1024]. *)

Module Float64.

Inductive t : Type :=
| Finite (m e : Z)
| Infinity.

Definition emin : Z := -1074.

(** [n / (d * 2^e)] as an integer fraction. *)
Definition scaled (n d e : Z) : Z * Z :=
  if 0 <=? e then (n, d * 2 ^ e) else (n * 2 ^ (- e), d).

(** The exact value [n / d] (with [0 <= n], [0 < d]) rounded. *)
Definition round_ratio (n d : Z) : t :=
  if n =? 0 then Finite 0 0
  else
    let e0 := Z.log2 n - Z.log2 d - 52 in
    let '(a0, b0) := scaled n d e0 in
    let e1 := if a0 / b0 <? 2 ^ 52 then e0 - 1 else e0 in
    let e := Z.max e1 emin in
    let '(a, b) := scaled n d e in
    let q := a / b in
    let r := a mod b in
    let q' := if 2 * r <? b then q
              else if b <? 2 * r then q + 1
              else if Z.even q then q else q + 1 in
    if (q' =? 0) then Finite 0 0
    else if 1024 <=? Z.log2 q' + e then Infinity
    else Finite q' e.

Definition ratio (m e : Z) : Z * Z :=
  if 0 <=? e then (m * 2 ^ e, 1) else (m, 2 ^ (- e)).

(** A decimal literal [n / d], as the parser reads it. *)
Definition of_decimal (n d : Z) : t := round_ratio n d.

(** The conversion applied to an [int] operand of a mixed operation. *)
Definition of_int (n : Z) : result t :=
  match round_ratio n 1 with
  | Infinity => Raised (OverflowError "int too large to convert to float")
  | x => Ok x
  end.

Definition mul (x y : t) : t :=
  match x, y with
  | Finite m1 e1, Finite m2 e2 =>
      let '(n1, d1) := ratio m1 e1 in
      let '(n2, d2) := ratio m2 e2 in
      round_ratio (n1 * n2) (d1 * d2)
  | Finite m _, Infinity | Infinity, Finite m _ =>
      (* 0 * inf is not a number; it never arises from a positive literal *)
      Infinity
  | Infinity, Infinity => Infinity
  end.

Definition div (x y : t) : result t :=
  match x, y with
  | _, Finite 0 _ => Raised (ZeroDivisionError "float division by zero")
  | Finite m1 e1, Finite m2 e2 =>
      let '(n1, d1) := ratio m1 e1 in
      let '(n2, d2) := ratio m2 e2 in
      Ok (round_ratio (n1 * d2) (d1 * n2))
  | Infinity, Finite _ _ => Ok Infinity
  | Finite _ _, Infinity => Ok (Finite 0 0)
  | Infinity, Infinity => Ok Infinity
  end.

(** [int(x)]: truncation. *)
Definition to_int (x : t) : result Z :=
  match x with
  | Finite m e => let '(n, d) := ratio m e in Ok (n / d)
  | Infinity => Raised (OverflowError "cannot convert float infinity to integer")
  end.

End Float64.

(** ** Multipart sizing in [upload_to_s3] *)

(** Scaleway S3's maximum number of parts for multipart upload. *)
Definition MAX_PARTS : Z := 1000.

(** [max(1, int(archive_size * 1.2 / MAX_PARTS))] *)
Definition part_size (archive_size : Z) : result Z :=
  rbind (Float64.of_int archive_size) (fun size_f =>
  let product := Float64.mul size_f (Float64.of_decimal 12 10) in
  rbind (Float64.of_int MAX_PARTS) (fun max_parts_f =>
  rbind (Float64.div product max_parts_f) (fun quotient =>
  rbind (Float64.to_int quotient) (fun n =>
  Ok (Z.max 1 n))))).

(** Number of parts a transfer of [size] bytes cut every [chunk] bytes
    needs. *)
Definition parts_needed (size chunk : Z) : Z := (size + chunk - 1) / chunk.

(** ** The world around the module

    The filesystem is a finite map from path strings to nodes; everything
    else the module talks to (clock, operating system, database driver,
    zip library, object storage SDK, HTTP client) is a collaborator whose
    behaviour is a parameter.  Every interaction is appended to a trace
    together with its outcome. *)

Inductive node : Type :=
| Dir
| File (contents : list Byte.byte).

(** Python values that travel in request headers and JSON bodies. *)
#[warnings="-register-all"]
Inductive pyval : Type :=
| VNone
| VStr (s : string)
| VInt (n : Z)
| VBuiltin (name : string)                 (* a builtin object, e.g. the type [zip] *)
| VDict (items : list (string * pyval)).

Definition of_opt (o : option string) : pyval :=
  match o with
  | Some s => VStr s
  | None => VNone
  end.

(** An optional string inside an f-string: [None] prints as [None]. *)
Definition fmt (o : option string) : string :=
  match o with
  | Some s => s
  | None => "None"
  end.

(** [dict[key]] on the items of a [VDict]. *)
Fixpoint item (key : string) (items : list (string * pyval)) : option pyval :=
  match items with
  | [] => None
  | (k, v) :: rest => if PyStr.eqb k key then Some v else item key rest
  end.

Definition field (key : string) (v : pyval) : option pyval :=
  match v with
  | VDict items => item key items
  | _ => None
  end.

Inductive method : Type := GET | POST | PUT.

Record request : Type := mkRequest {
  req_method : method;
  req_url : string;
  req_headers : list (string * pyval);
  req_json : pyval
}.

(** One entry of the [resources] array of a dataset. *)
Record resource : Type := mkResource {
  res_format : string;
  res_title : string;
  res_id : string
}.

Record response : Type := mkResponse {
  status_code : Z;
  resources : list resource       (* [response.json()["resources"]] *)
}.

(** Context managers entered by a [with] statement. *)
Inductive manager : Type :=
| OpenW (path : string)                    (* [open(path, "w")] *)
| TransactionAtomic
| ConnectionCursor
| ZipFileW (path : string).                (* [ZipFile(path, "w", ZIP_DEFLATED)] *)

Inductive syscall : Type :=
| Print (line : string)
| LoggingError (msg : string)
| LoggingInfo (msg : string)
| OsMkdir (path : string)
| ShutilRmtree (path : string)
| Enter (cm : manager)
| Exit (cm : manager) (failed : bool)
| CursorExecute (sql : string)
| CursorCopyExpert (sql : string) (dest : string)
| ZipWrite (archive filename arcname : string)
| Boto3Client (access_key secret endpoint region : option string)
| S3UploadFile (filename : string) (bucket : option string) (key : string)
               (acl : string) (multipart_chunksize : Z)
| S3WaitObjectExists (bucket : option string) (key : string)
| Requests (req : request).

(** A call and the exception it raised, if any. *)
Definition event : Type := syscall * option exn.

Record datetime : Type := mkDatetime {
  stamp : string;      (* [strftime("%Y-%m-%d_%H-%M-%S")] *)
  text : string        (* [str(...)] *)
}.

(** The collaborators.  [fault] says whether a call raises for a reason of
    the collaborator's own (and moves its state on); the other fields give
    the data a call produces, read before the call's transition. *)
Record Services (Ext : Type) : Type := mkServices {
  fault : syscall -> Ext -> option exn * Ext;
  now : Ext -> datetime * Ext;
  copied_rows : string -> Ext -> list Byte.byte;
  deflated : string -> list Byte.byte -> Ext -> list Byte.byte;
  reply : request -> Ext -> response
}.
Arguments mkServices {Ext} _ _ _ _ _.
Arguments fault {Ext} _ _ _.
Arguments now {Ext} _ _.
Arguments copied_rows {Ext} _ _ _.
Arguments deflated {Ext} _ _ _ _.
Arguments reply {Ext} _ _ _.

Record World (Ext : Type) : Type := mkWorld {
  fs : gmap string node;
  environ : gmap string string;
  trace : list event;
  ext : Ext
}.
Arguments mkWorld {Ext} _ _ _ _.
Arguments fs {Ext} _.
Arguments environ {Ext} _.
Arguments trace {Ext} _.
Arguments ext {Ext} _.

(** [k] lies below directory [d]. *)
Definition under (d k : string) : bool := String.prefix (d ++ "/") k.

(** What [shutil.rmtree(d)] leaves. *)
Definition prune (d : string) (m : gmap string node) : gmap string node :=
  filter (fun kv => kv.1 <> d /\ under d kv.1 = false) m.

(** Neither the directory nor anything below it is in the filesystem. *)
Definition absent (m : gmap string node) (d : string) : Prop :=
  m !! d = None /\ forall k, under d k = true -> m !! k = None.

(** Directories whose creation succeeded, in order. *)
Fixpoint created_dirs (t : list event) : list string :=
  match t with
  | [] => []
  | (OsMkdir d, None) :: t' => d :: created_dirs t'
  | _ :: t' => created_dirs t'
  end.

(** The events of [w'] that follow those of [w]. *)
Definition new_events {Ext} (w w' : World Ext) : list event :=
  drop (length (trace w)) (trace w').

(** ** The state-and-exception monad of the module *)

Definition M (Ext A : Type) : Type := World Ext -> result A * World Ext.

Definition ret {Ext A} (a : A) : M Ext A := fun w => (Ok a, w).

Definition raise {Ext A} (e : exn) : M Ext A := fun w => (Raised e, w).

Definition bind {Ext A B} (m : M Ext A) (k : A -> M Ext B) : M Ext B :=
  fun w =>
    match m w with
    | (Ok a, w') => k a w'
    | (Raised e, w') => (Raised e, w')
    end.

Declare Scope py_scope.
Delimit Scope py_scope with py.
Notation "'let*' x := m 'in' k" := (bind m (fun x => k))
  (at level 10, x pattern, m at level 100, k at level 200) : py_scope.
Notation "m ;; k" := (bind m (fun _ => k))
  (at level 100, k at level 200, right associativity) : py_scope.
Local Open Scope py_scope.

Definition lift {Ext A} (r : result A) : M Ext A := fun w => (r, w).

(** [try: body  finally: final]: the final clause always runs; an
    exception it raises replaces the pending outcome. *)
Definition try_finally {Ext A} (body : M Ext A) (final : result A -> M Ext unit)
  : M Ext A :=
  fun w =>
    match body w with
    | (r, w1) =>
        match final r w1 with
        | (Ok _, w2) => (r, w2)
        | (Raised e, w2) => (Raised e, w2)
        end
    end.

(** [try: body  except Exception as e: handler(e)] *)
Definition try_except {Ext A} (body : M Ext A) (handler : exn -> M Ext A)
  : M Ext A :=
  fun w =>
    match body w with
    | (Ok a, w1) => (Ok a, w1)
    | (Raised e, w1) => handler e w1
    end.

(** ** Pure helpers of the stages *)

(** Return the global path of a file WITHOUT the extension *)
Definition file_path (directory_name code_area : string) : string :=
  directory_name ++ "/RNB_" ++ code_area.

(** [os.path.basename] *)
Fixpoint basename_from (s acc : string) : string :=
  match s with
  | EmptyString => acc
  | String c s' =>
      if Ascii.eqb c "/" then basename_from s' EmptyString
      else basename_from s' (acc ++ String c EmptyString)
  end.

Definition basename (path : string) : string := basename_from path EmptyString.

(** [os.path.dirname]: what precedes the last separator; [seen] is the
    part of the path already scanned. *)
Fixpoint dirname_from (s seen dir : string) : string :=
  match s with
  | EmptyString => dir
  | String c s' =>
      if Ascii.eqb c "/" then dirname_from s' (seen ++ "/") seen
      else dirname_from s' (seen ++ String c EmptyString) dir
  end.

Definition dirname (path : string) : string :=
  dirname_from path EmptyString EmptyString.

(** The directory part of [path] is an existing directory; a path
    without directory part lies in the working directory. *)
Definition parent_exists (m : gmap string node) (path : string) : bool :=
  if PyStr.eqb (dirname path) "" then true
  else match m !! dirname path with
       | Some Dir => true
       | _ => false
       end.

(** A parameter with a default value: [None] stands for an omitted
    argument. *)
Definition default_arg {A} (dflt : A) (given : option A) : A :=
  match given with
  | Some a => a
  | None => dflt
  end.

Definition resource_title (area : string) : string :=
  if PyStr.eqb area "nat" then "Export National"
  else "Export Départemental " ++ area.

Definition resource_description (area : string) : string :=
  if PyStr.eqb area "nat"
  then "Export du RNB au format csv pour l’ensemble du territoire français."
  else "Export du RNB au format csv pour le département " ++ area ++ ".".

(** The test of the [for] loop in [data_gouv_resource_id]. *)
Definition matches_area (area : string) (r : resource) : bool :=
  PyStr.eqb (res_format r) "zip"
  && ((PyStr.eqb area "nat" && PyStr.eqb (res_title r) "Export National")
      || (negb (PyStr.eqb area "nat")
          && PyStr.eqb (res_title r) ("Export Départemental " ++ area))).

Fixpoint scan_resources (area : string) (rs : list resource) : option string :=
  match rs with
  | [] => None
  | r :: rest =>
      if matches_area area r then Some (res_id r) else scan_resources area rest
  end.

Section Pipeline.

Context {Ext : Type} (svc : Services Ext).

Local Abbreviation M := (M Ext).

Definition record (c : syscall) (o : option exn) (w : World Ext) : World Ext :=
  mkWorld (fs w) (environ w) (trace w ++ [(c, o)]) (ext w).

Definition set_fs (m : gmap string node) (w : World Ext) : World Ext :=
  mkWorld m (environ w) (trace w) (ext w).

Definition set_ext (x : Ext) (w : World Ext) : World Ext :=
  mkWorld (fs w) (environ w) (trace w) x.

Definition outcome (o : option exn) : result unit :=
  match o with
  | Some e => Raised e
  | None => Ok tt
  end.

(** A call into a collaborator. *)
Definition call (c : syscall) : M unit :=
  fun w =>
    let '(o, x) := fault svc c (ext w) in
    (outcome o, record c o (set_ext x w)).

(** [print], [logging.error], [logging.info] *)
Definition emit (c : syscall) : M unit :=
  fun w => (Ok tt, record c None w).

(** [os.environ.get(name)] *)
Definition environ_get (name : string) : M (option string) :=
  fun w => (Ok (environ w !! name), w).

(** [datetime.now()] *)
Definition datetime_now : M datetime :=
  fun w => let '(t, x) := now svc (ext w) in (Ok t, set_ext x w).

(** [os.mkdir(path)] *)
Definition os_mkdir (path : string) : M unit :=
  fun w =>
    match fs w !! path with
    | Some _ =>
        let e := FileExistsError path in
        (Raised e, record (OsMkdir path) (Some e) w)
    | None =>
        if negb (parent_exists (fs w) path) then
          let e := FileNotFoundError path in
          (Raised e, record (OsMkdir path) (Some e) w)
        else
          match fault svc (OsMkdir path) (ext w) with
          | (Some e, x) => (Raised e, record (OsMkdir path) (Some e) (set_ext x w))
          | (None, x) =>
              (Ok tt, record (OsMkdir path) None
                        (set_fs (<[path := Dir]> (fs w)) (set_ext x w)))
          end
    end.

(** [shutil.rmtree(path)]; removal of an existing directory is taken
    to succeed. *)
Definition shutil_rmtree (path : string) : M unit :=
  fun w =>
    match fs w !! path with
    | Some Dir =>
        (Ok tt, record (ShutilRmtree path) None (set_fs (prune path (fs w)) w))
    | Some (File _) =>
        let e := Foreign "NotADirectoryError" ("[Errno 20] Not a directory: '" ++ path ++ "'") in
        (Raised e, record (ShutilRmtree path) (Some e) w)
    | None =>
        let e := FileNotFoundError path in
        (Raised e, record (ShutilRmtree path) (Some e) w)
    end.

(** [os.listdir(path)]; only the failure matters, the listing is
    unused. *)
Definition os_listdir (path : string) : M unit :=
  fun w =>
    match fs w !! path with
    | Some Dir => (Ok tt, w)
    | Some (File _) =>
        (Raised (Foreign "NotADirectoryError" ("[Errno 20] Not a directory: '" ++ path ++ "'")), w)
    | None => (Raised (FileNotFoundError path), w)
    end.

Definition write_file (path : string) (contents : list Byte.byte) : M unit :=
  fun w => (Ok tt, set_fs (<[path := File contents]> (fs w)) w).

Definition read_file (path : string) : M (list Byte.byte) :=
  fun w =>
    match fs w !! path with
    | Some (File contents) => (Ok contents, w)
    | Some Dir =>
        (Raised (Foreign "IsADirectoryError" ("[Errno 21] Is a directory: '" ++ path ++ "'")), w)
    | None => (Raised (FileNotFoundError path), w)
    end.

(** [os.path.getsize(path)]; a directory reports the size of its
    entry. *)
Definition DIR_ENTRY_SIZE : Z := 4096.

Definition os_path_getsize (path : string) : M Z :=
  fun w =>
    match fs w !! path with
    | Some (File contents) => (Ok (Z.of_nat (length contents)), w)
    | Some Dir => (Ok DIR_ENTRY_SIZE, w)
    | None => (Raised (FileNotFoundError path), w)
    end.

(** Opening a file for writing creates or truncates it, inside an
    existing directory. *)
Definition create_file (path : string) : M unit :=
  fun w =>
    if parent_exists (fs w) path then write_file path [] w
    else (Raised (FileNotFoundError path), w).

(** [with cm: body].  Entering a writer opens its file; leaving always
    happens and is told whether the body failed. *)
Definition on_enter (cm : manager) : M unit :=
  match cm with
  | OpenW path | ZipFileW path => create_file path
  | TransactionAtomic | ConnectionCursor => ret tt
  end.

Definition is_raised {A} (r : result A) : bool :=
  match r with
  | Raised _ => true
  | Ok _ => false
  end.

Definition with_ {A} (cm : manager) (body : M A) : M A :=
  call (Enter cm) ;;
  on_enter cm ;;
  try_finally body (fun r => call (Exit cm (is_raised r))).

(** *** The stages *)

Definition create_directory (area : string) : M string :=
  let* t := datetime_now in
  let directory_name := "datagouvfr_publication_" ++ area ++ "_" ++ stamp t in
  os_mkdir directory_name ;;
  ret directory_name.

(** [cursor.copy_expert(sql, fp)]: the rows reach the file even when
    the call ends in an exception. *)
Definition copy_expert (sql dest : string) : M unit :=
  fun w =>
    let rows := copied_rows svc sql (ext w) in
    let '(o, x) := fault svc (CursorCopyExpert sql dest) (ext w) in
    (outcome o,
     record (CursorCopyExpert sql dest) o
       (set_fs (<[dest := File rows]> (fs w)) (set_ext x w))).

Definition create_csv (directory_name code_area : string) : M unit :=
  let sql := sql_query code_area in
  with_ (OpenW (file_path directory_name code_area ++ ".csv"))
    (with_ TransactionAtomic
       (with_ ConnectionCursor
          ((* custom statement timeout set at 48H *)
           call (CursorExecute "SET LOCAL statement_timeout = 172800000;") ;;
           copy_expert sql (file_path directory_name code_area ++ ".csv")))).

Definition sha1sum (filename : string) : M string :=
  let* contents := read_file filename in
  ret (sha1sum_of contents).

(** [zip.write(filename, arcname)] *)
Definition zip_write (archive filename arcname : string) : M unit :=
  let* contents := read_file filename in
  fun w =>
    let data := deflated svc arcname contents (ext w) in
    let '(o, x) := fault svc (ZipWrite archive filename arcname) (ext w) in
    (outcome o,
     record (ZipWrite archive filename arcname) o
       (set_fs (<[archive := File data]> (fs w)) (set_ext x w))).

Definition create_archive (directory_name code_area : string)
  : M (string * Z * string) :=
  os_listdir directory_name ;;
  let archive_path := file_path directory_name code_area ++ ".csv.zip" in
  with_ (ZipFileW archive_path)
    (zip_write archive_path (file_path directory_name code_area ++ ".csv")
       ("RNB_" ++ code_area ++ ".csv")) ;;
  let* archive_size := os_path_getsize archive_path in
  let* archive_sha1 := sha1sum archive_path in
  emit (LoggingInfo ("zip archive for data.gouv.fr created: " ++ archive_path
                     ++ " (" ++ PyStr.str_of_int archive_size
                     ++ " bytes, sha1: " ++ archive_sha1 ++ ")")) ;;
  ret (archive_path, archive_size, archive_sha1).

Definition upload_to_s3 (archive_path : string) : M string :=
  (* upload the archive to the Scaleway S3 bucket *)
  let* S3_SCALEWAY_ACCESS_KEY_ID := environ_get "S3_SCALEWAY_ACCESS_KEY_ID" in
  let* S3_SCALEWAY_SECRET_ACCESS_KEY := environ_get "S3_SCALEWAY_SECRET_ACCESS_KEY" in
  let* S3_SCALEWAY_ENDPOINT_URL := environ_get "S3_SCALEWAY_ENDPOINT_URL" in
  let* S3_SCALEWAY_REGION_NAME := environ_get "S3_SCALEWAY_REGION_NAME" in
  let* S3_SCALEWAY_BUCKET_NAME := environ_get "S3_SCALEWAY_BUCKET_NAME" in
  let* S3_SCALEWAY_OPENDATA_DIRECTORY := environ_get "S3_SCALEWAY_OPENDATA_DIRECTORY" in
  call (Boto3Client S3_SCALEWAY_ACCESS_KEY_ID S3_SCALEWAY_SECRET_ACCESS_KEY
          S3_SCALEWAY_ENDPOINT_URL S3_SCALEWAY_REGION_NAME) ;;
  (* extract file name from archive path *)
  let archive_name := basename archive_path in
  let path_on_bucket := fmt S3_SCALEWAY_OPENDATA_DIRECTORY ++ "/" ++ archive_name in
  (* compute the corresponding part size *)
  let* archive_size := os_path_getsize archive_path in
  let* chunk := lift (part_size archive_size) in
  call (S3UploadFile archive_path S3_SCALEWAY_BUCKET_NAME path_on_bucket
          "public-read" chunk) ;;
  call (S3WaitObjectExists S3_SCALEWAY_BUCKET_NAME path_on_bucket) ;;
  ret ("https://" ++ fmt S3_SCALEWAY_BUCKET_NAME ++ ".s3."
       ++ fmt S3_SCALEWAY_REGION_NAME ++ ".scw.cloud/" ++ path_on_bucket).

(** *** The portal *)

(** [requests.get], [requests.post], [requests.put] *)
Definition requests (req : request) : M response :=
  fun w =>
    let resp := reply svc req (ext w) in
    let '(o, x) := fault svc (Requests req) (ext w) in
    (match o with
     | Some e => Raised e
     | None => Ok resp
     end,
     record (Requests req) o (set_ext x w)).

Definition portal_headers : M (list (string * pyval)) :=
  let* key := environ_get "DATA_GOUV_API_KEY" in
  ret [("X-API-KEY", of_opt key); ("Content-Type", VStr "application/json")].

Definition data_gouv_create_resource
  (dataset_id : option string) (title description public_url : string)
  (archive_size : Z) (archive_sha1 : string) (format : option pyval)
  : M bool :=
  let format := default_arg (VStr "zip") format in
  let* DATA_GOUV_BASE_URL := environ_get "DATA_GOUV_BASE_URL" in
  let dataset_url :=
    fmt DATA_GOUV_BASE_URL ++ "/api/1/datasets/" ++ fmt dataset_id ++ "/resources/" in
  let* headers := portal_headers in
  let* t := datetime_now in
  let* response :=
    requests (mkRequest POST dataset_url headers
      (VDict [("title", VStr title);
              ("description", VStr description);
              ("type", VStr "main");
              ("url", VStr public_url);
              ("filetype", VStr "remote");
              ("format", format);
              ("filesize", VInt archive_size);
              ("checksum", VDict [("type", VStr "sha1"); ("value", VStr archive_sha1)]);
              ("created_at", VStr (text t))])) in
  if negb (status_code response =? 201)
  then raise (PlainException "Error while creating the resource")
  else ret true.

Definition data_gouv_resource_id (dataset_id : option string) (area : string)
  : M (option string) :=
  (* get the resource id from data.gouv.fr *)
  let* DATA_GOUV_BASE_URL := environ_get "DATA_GOUV_BASE_URL" in
  let dataset_url :=
    fmt DATA_GOUV_BASE_URL ++ "/api/1/datasets/" ++ fmt dataset_id ++ "/" in
  let* response := requests (mkRequest GET dataset_url [] VNone) in
  if negb (status_code response =? 200)
  then raise (PlainException "Error while fetching the dataset")
  else ret (scan_resources area (resources response)).

Definition update_resource_metadata
  (dataset_id : option string) (resource_id : string)
  (title description public_url : string)
  (archive_size : Z) (archive_sha1 : string) (format : option pyval)
  : M bool :=
  let format := default_arg (VBuiltin "zip") format in
  (* update the resource url on data.gouv.fr *)
  let* DATA_GOUV_BASE_URL := environ_get "DATA_GOUV_BASE_URL" in
  let update_url :=
    fmt DATA_GOUV_BASE_URL ++ "/api/1/datasets/" ++ fmt dataset_id
    ++ "/resources/" ++ resource_id ++ "/" in
  let* headers := portal_headers in
  emit (Print ("Updating resource " ++ resource_id ++ " in dataset " ++ fmt dataset_id)) ;;
  emit (Print ("Update URL: " ++ update_url)) ;;
  let* t := datetime_now in
  let* response :=
    requests (mkRequest PUT update_url headers
      (VDict [("title", VStr title);
              ("description", VStr description);
              ("type", VStr "main");
              ("url", VStr public_url);
              ("filetype", VStr "remote");
              ("format", format);
              ("filesize", VInt archive_size);
              ("checksum", VDict [("type", VStr "sha1"); ("value", VStr archive_sha1)]);
              ("extras", VDict [("analysis:last-modified-at", VStr (text t))])])) in
  if negb (status_code response =? 200)
  then raise (PlainException "Error while updating the resource url")
  else ret true.

Definition publish_on_data_gouv
  (area public_url : string) (archive_size : Z) (archive_sha1 : string)
  (format : option pyval) : M bool :=
  let format := default_arg (VStr "zip") format in
  (* publish the archive on data.gouv.fr *)
  let* dataset_id := environ_get "DATA_GOUV_DATASET_ID" in
  let* resource_id := data_gouv_resource_id dataset_id area in
  let title := resource_title area in
  let description := resource_description area in
  match resource_id with
  | Some resource_id =>
      (* ressource already exists *)
      update_resource_metadata dataset_id resource_id title description
        public_url archive_size archive_sha1 (Some format)
  | None =>
      (* ressource don't exist *)
      data_gouv_create_resource dataset_id title description
        public_url archive_size archive_sha1 (Some format)
  end ;;
  ret true.

(** *** The orchestrator *)

Definition cleanup_directory (directory_name : string) : M unit :=
  shutil_rmtree directory_name.

(** Reading the local variable [directory_name]. *)
Definition load_local (name : string) (v : option string) : M string :=
  match v with
  | Some s => ret s
  | None => raise (UnboundLocalError name)
  end.

(** The [try] suite for one area.  Besides its outcome it reports the
    value bound to [directory_name], if the assignment was reached. *)
Definition try_suite (area : string) : World Ext -> result unit * option string * World Ext :=
  fun w =>
    match create_directory area w with
    | (Raised e, w1) => (Raised e, None, w1)
    | (Ok directory_name, w1) =>
        let '(r, w2) :=
          (emit (Print ("Processing area: " ++ area)) ;;
           create_csv directory_name area ;;
           let* archive := create_archive directory_name area in
           let '(archive_path, archive_size, archive_sha1) := archive in
           let* public_url := upload_to_s3 archive_path in
           publish_on_data_gouv area public_url archive_size archive_sha1 None ;;
           ret tt) w1 in
        (r, Some directory_name, w2)
    end.

(** The [except] and [finally] clauses, given the outcome [r] of the
    [try] suite and the binding of [directory_name] at that point. *)
Definition except_finally (area : string) (r : result unit)
  (directory_name : option string) : M unit :=
  try_finally
    (try_except (lift r)
       (fun e =>
          emit (LoggingError ("Error while publishing the RNB for area "
                              ++ area ++ " on data.gouv.fr: " ++ str_exn e)) ;;
          raise e))
    (fun _ =>
       (* we always cleanup the directory, no matter what happens *)
       let* d := load_local "directory_name" directory_name in
       cleanup_directory d).

(** The [for] loop; [directory_name] is the function's local variable,
    unbound on entry and kept from one iteration to the next. *)
Fixpoint publish_loop (areas_list : list string) (directory_name : option string)
  : M bool :=
  match areas_list with
  | [] => ret true
  | area :: rest =>
      fun w =>
        let '(r, assigned, w1) := try_suite area w in
        let directory_name :=
          match assigned with
          | Some d => Some d
          | None => directory_name
          end in
        (except_finally area r directory_name ;;
         publish_loop rest directory_name) w1
  end.

Definition publish (areas_list : list string) : M bool :=
  (* Publish the RNB on data.gouv.fr *)
  emit (Print (PyStr.str_of_int (Z.of_nat (length areas_list)) ++ " area(s) to process...")) ;;
  publish_loop areas_list None.

End Pipeline.

(** ** Task signatures *)

Record Signature : Type := mkSignature {
  task : string;
  args : list string;
  immutable : bool
}.

(** [dpts_list] is the list [batid.services.administrative_areas.dpts_list()]
    returns. *)
Definition get_area_publish_task (dpts_list : list string) (area : string)
  : result Signature :=
  if PyStr.eqb area "nat" then
    Ok (mkSignature "batid.tasks.publish_datagouv_national" [] true)
  else if existsb (PyStr.eqb area) dpts_list then
    Ok (mkSignature "batid.tasks.publish_datagouv_dpt" [area] true)
  else
    Raised (ValueError ("Unknown area: " ++ area
                        ++ ". It must be either 'nat' or a department code. '"
                        ++ area ++ "' given.")).

(** ** Vocabulary of the statements *)

(** The selection rule in words: a resource stands for an area when its
    format is "zip" and its title is the one derived from the area. *)
Definition stands_for (area : string) (r : resource) : Prop :=
  res_format r = "zip" /\ res_title r = resource_title area.

(** The HTTP requests among some events, in order. *)
Fixpoint http_requests (t : list event) : list request :=
  match t with
  | [] => []
  | (Requests req, _) :: t' => req :: http_requests t'
  | _ :: t' => http_requests t'
  end.

(** The request that lists the resources of a dataset, and the address
    of one resource. *)
Definition dataset_request {Ext} (w : World Ext) (dataset_id : option string)
  : request :=
  mkRequest GET
    (fmt (environ w !! "DATA_GOUV_BASE_URL") ++ "/api/1/datasets/"
     ++ fmt dataset_id ++ "/") [] VNone.

Definition resource_url {Ext} (w : World Ext) (dataset_id : option string)
  (resource_id : string) : string :=
  fmt (environ w !! "DATA_GOUV_BASE_URL") ++ "/api/1/datasets/"
  ++ fmt dataset_id ++ "/resources/" ++ resource_id ++ "/".

Definition resources_url {Ext} (w : World Ext) (dataset_id : option string)
  : string :=
  fmt (environ w !! "DATA_GOUV_BASE_URL") ++ "/api/1/datasets/"
  ++ fmt dataset_id ++ "/resources/".

(** The portal answers [req] with status 200 and the resource list [rs],
    without raising. *)
Definition served {Ext} (svc : Services Ext) (w : World Ext) (req : request)
  (rs : list resource) : Prop :=
  (fault svc (Requests req) (ext w)).1 = None
  /\ reply svc req (ext w) = mkResponse 200 rs.

(** A PUT request carries the string "zip" as its format. *)
Definition sends_zip_string (req : request) : Prop :=
  req_method req = PUT -> field "format" (req_json req) = Some (VStr "zip").

(** The value a PUT request carries as its format. *)
Definition put_carries (v : pyval) (req : request) : Prop :=
  req_method req = PUT -> field "format" (req_json req) = Some v.

(** Calls the stages make besides creating and removing the workspace
    and talking to the portal. *)
Definition stage_call (c : syscall) : bool :=
  match c with
  | OsMkdir _ | ShutilRmtree _ | Requests _ => false
  | _ => true
  end.

(** [w'] comes after [w]: its trace extends that of [w] by events that
    satisfy [okev], and the two filesystems agree outside the paths that
    satisfy [okpath]. *)
Definition evolves {Ext} (okev : event -> Prop) (okpath : string -> Prop)
  (w w' : World Ext) : Prop :=
  (exists t, trace w' = (trace w ++ t)%list /\ Forall okev t)
  /\ forall k, ~ okpath k -> fs w' !! k = fs w !! k.

Definition keeps {Ext A} (okev : event -> Prop) (okpath : string -> Prop)
  (m : M Ext A) : Prop :=
  forall w, evolves okev okpath w (m w).2.

(** [w'] comes after [w] with nothing added for good: every entry of its
    filesystem was already in [w], and every directory created in between
    is gone, with all it held. *)
Definition settles {Ext} (w w' : World Ext) : Prop :=
  (forall k v, fs w' !! k = Some v -> fs w !! k = Some v)
  /\ exists t, trace w' = (trace w ++ t)%list
               /\ Forall (absent (fs w')) (created_dirs t).

(** Events that create nothing. *)
Definition creates_nothing (ev : event) : Prop := created_dirs [ev] = [].

(** An event that, if it is a request, satisfies [P]. *)
Definition request_event (P : request -> Prop) (ev : event) : Prop :=
  match ev with
  | (Requests req, _) => P req
  | _ => True
  end.

Definition three_resources : list resource :=
  [mkResource "pdf" "Export National" "r0";
   mkResource "zip" "Export National" "r1";
   mkResource "zip" "Export National" "r2"].

(** ** Scripted collaborators

    A collaborator set without state of its own: [faults] decides which
    calls raise, [rs] is the resource list the portal serves. *)

Definition scripted (faults : syscall -> option exn) (rs : list resource)
  : Services unit :=
  mkServices
    (fun c x => (faults c, x))
    (fun x => (mkDatetime "2025-03-26_11-20-00" "2025-03-26 11:20:00.000000", x))
    (fun _ _ => bytes_of_string "rnb_id;point;shape;status;ext_ids;addresses;plots")
    (fun _ data _ => data)
    (fun req _ =>
       match req_method req with
       | GET => mkResponse 200 rs
       | POST => mkResponse 201 []
       | PUT => mkResponse 200 []
       end).

Definition no_fault : syscall -> option exn := fun _ => None.

Definition empty_world : World unit := mkWorld ∅ ∅ [] tt.

(** Faults used in the worked runs: the operating system refuses to
    create the directory of area "2A", or any directory; the upload
    fails. *)
Definition deny_mkdir_2A : syscall -> option exn :=
  fun c =>
    match c with
    | OsMkdir path =>
        if PyStr.contains "_2A_" path
        then Some (Foreign "PermissionError"
                     ("[Errno 13] Permission denied: '" ++ path ++ "'"))
        else None
    | _ => None
    end.

Definition deny_mkdir : syscall -> option exn :=
  fun c =>
    match c with
    | OsMkdir path =>
        Some (Foreign "PermissionError"
                ("[Errno 13] Permission denied: '" ++ path ++ "'"))
    | _ => None
    end.

Definition upload_fails : syscall -> option exn :=
  fun c =>
    match c with
    | S3UploadFile _ _ _ _ _ =>
        Some (Foreign "S3UploadFailedError" "Failed to upload")
    | _ => None
    end.

Definition workspace_75 : string := "datagouvfr_publication_75_2025-03-26_11-20-00".

(** * Properties *)

(** ** Substring search *)

Section ContainsFacts.

Lemma append_assoc (a b c : string) : (a ++ b) ++ c = a ++ b ++ c.
Proof.
  induction a as [|x a IH]; [reflexivity|].
  change (String x ((a ++ b) ++ c) = String x (a ++ b ++ c)). now rewrite IH.
Qed.

Lemma length_append (a b : string) :
  String.length (a ++ b) = (String.length a + String.length b)%nat.
Proof.
  induction a as [|x a IH]; [reflexivity|].
  change (S (String.length (a ++ b)) = S (String.length a + String.length b)).
  now rewrite IH.
Qed.

Lemma prefix_app (a b : string) : String.prefix a (a ++ b) = true.
Proof.
  induction a as [|c a IH]; simpl.
  - now destruct b.
  - destruct (ascii_dec c c) as [_|Hne]; [exact IH | now destruct Hne].
Qed.

Lemma prefix_app_inv (a b s : string) :
  String.prefix (a ++ b) s = true -> String.prefix a s = true.
Proof.
  revert s. induction a as [|c a IH]; intros s H; simpl in *.
  - now destruct s.
  - destruct s as [|c' s]; simpl in *; [discriminate|].
    destruct (ascii_dec c c'); [now apply IH | discriminate].
Qed.

Lemma contains_unfold (frag s : string) :
  PyStr.contains frag s =
  String.prefix frag s
  || match s with
     | EmptyString => false
     | String _ s' => PyStr.contains frag s'
     end.
Proof. destruct s; reflexivity. Qed.

Lemma contains_here (frag r : string) : PyStr.contains frag (frag ++ r) = true.
Proof. rewrite contains_unfold, prefix_app. reflexivity. Qed.

Lemma contains_skip (l frag s : string) :
  PyStr.contains frag s = true -> PyStr.contains frag (l ++ s) = true.
Proof.
  intros H. induction l as [|c l IH]; [exact H|].
  change (String c l ++ s) with (String c (l ++ s)).
  rewrite contains_unfold, IH. apply orb_true_r.
Qed.

Lemma contains_app (l frag r : string) :
  PyStr.contains frag (l ++ frag ++ r) = true.
Proof. apply contains_skip, contains_here. Qed.

Lemma contains_longer (a b s : string) :
  PyStr.contains (a ++ b) s = true -> PyStr.contains a s = true.
Proof.
  induction s as [|c s IH]; intros H;
    rewrite contains_unfold in H; rewrite contains_unfold;
    apply orb_true_iff in H as [H|H].
  - apply prefix_app_inv in H. now rewrite H.
  - discriminate.
  - apply prefix_app_inv in H. now rewrite H.
  - rewrite (IH H). apply orb_true_r.
Qed.

Lemma contains_shorter (a b s : string) :
  PyStr.contains a s = false -> PyStr.contains (a ++ b) s = false.
Proof.
  intros H. destruct (PyStr.contains (a ++ b) s) eqn:E; [|reflexivity].
  apply contains_longer in E. congruence.
Qed.

Lemma prefix_spec (a s : string) :
  String.prefix a s = true -> exists r, s = a ++ r.
Proof.
  revert s. induction a as [|x a IH]; intros s H.
  - now exists s.
  - destruct s as [|y s]; simpl in H; [discriminate|].
    destruct (ascii_dec x y) as [->|]; [|discriminate].
    destruct (IH _ H) as [r ->]. now exists r.
Qed.

(** [contains] decides the existence of an occurrence. *)
Lemma contains_spec (frag s : string) :
  PyStr.contains frag s = true <-> exists l r, s = l ++ frag ++ r.
Proof.
  split.
  - induction s as [|c s IH]; rewrite contains_unfold; intros H;
      apply orb_true_iff in H as [H|H]; try discriminate.
    + apply prefix_spec in H as [r ->]. now exists "", r.
    + apply prefix_spec in H as [r ->]. now exists "", r.
    + destruct (IH H) as (l & r & ->). now exists (String c l), r.
  - intros (l & r & ->). apply contains_app.
Qed.

End ContainsFacts.

(** ** The export query *)

(** C5. For area "nat" the query text holds neither the department join
    nor a department filter (for any code); for every other area code it
    holds both the join on the subdivided-department table through
    [ST_Intersects] and the filter on that area's code. *)
Theorem sql_query_department_clauses :
  (PyStr.contains dpt_join_fragment (sql_query "nat") = false
   /\ forall code, PyStr.contains (dpt_where_fragment code) (sql_query "nat") = false)
  /\ forall code_area, code_area <> "nat" ->
       PyStr.contains dpt_join_fragment (sql_query code_area) = true
       /\ PyStr.contains (dpt_where_fragment code_area) (sql_query code_area) = true.
Proof.
  split; [split|].
  - vm_compute. reflexivity.
  - intros code. unfold dpt_where_fragment.
    apply contains_shorter. vm_compute. reflexivity.
  - intros code_area Hne. unfold sql_query, PyStr.eqb.
    apply String.eqb_neq in Hne. rewrite Hne. split.
    + apply contains_app.
    + do 3 apply contains_skip. apply contains_here.
Qed.

Lemma sql_query_department_clauses_witness :
  "75" <> "nat"
  /\ PyStr.contains dpt_join_fragment (sql_query "75") = true
  /\ PyStr.contains (dpt_where_fragment "75") (sql_query "75") = true.
Proof.
  split; [discriminate|].
  apply (proj2 sql_query_department_clauses "75"). discriminate.
Defined.

(** ** Task signatures *)

Lemma existsb_eqb_In (area : string) (l : list string) :
  existsb (PyStr.eqb area) l = true <-> In area l.
Proof.
  rewrite existsb_exists. unfold PyStr.eqb. split.
  - intros (x & Hx & E). apply String.eqb_eq in E. now subst.
  - intros H. exists area. split; [exact H | apply String.eqb_refl].
Qed.

(** C6. With a department list that does not hold "nat":
    [get_area_publish_task "nat"] is the national signature without
    positional arguments; for every area of the list it is the
    departmental signature whose only argument is the area; for every
    other string it raises a [ValueError] whose message names the area. *)
Theorem get_area_publish_task_cases (dpts_list : list string) :
  ~ In "nat" dpts_list ->
  get_area_publish_task dpts_list "nat"
    = Ok (mkSignature "batid.tasks.publish_datagouv_national" [] true)
  /\ (forall area, In area dpts_list ->
        get_area_publish_task dpts_list area
          = Ok (mkSignature "batid.tasks.publish_datagouv_dpt" [area] true))
  /\ (forall area, area <> "nat" -> ~ In area dpts_list ->
        exists msg, get_area_publish_task dpts_list area = Raised (ValueError msg)
                    /\ PyStr.contains area msg = true).
Proof.
  intros Hnat. split; [reflexivity|]. split.
  - intros area Hin. unfold get_area_publish_task.
    destruct (PyStr.eqb area "nat") eqn:E.
    + apply String.eqb_eq in E. subst. contradiction.
    + apply existsb_eqb_In in Hin. now rewrite Hin.
  - intros area Hne Hout. unfold get_area_publish_task.
    apply String.eqb_neq in Hne. unfold PyStr.eqb at 1. rewrite Hne.
    destruct (existsb (PyStr.eqb area) dpts_list) eqn:E.
    + apply existsb_eqb_In in E. contradiction.
    + eexists. split; [reflexivity|].
      apply (contains_app "Unknown area: " area).
Qed.

Lemma get_area_publish_task_cases_witness :
  ~ In "nat" ["01"; "2A"; "75"; "976"]
  /\ get_area_publish_task ["01"; "2A"; "75"; "976"] "nat"
       = Ok (mkSignature "batid.tasks.publish_datagouv_national" [] true)
  /\ get_area_publish_task ["01"; "2A"; "75"; "976"] "75"
       = Ok (mkSignature "batid.tasks.publish_datagouv_dpt" ["75"] true)
  /\ exists msg, get_area_publish_task ["01"; "2A"; "75"; "976"] "XX"
                   = Raised (ValueError msg)
                 /\ PyStr.contains "XX" msg = true.
Proof.
  assert (Hnat : ~ In "nat" ["01"; "2A"; "75"; "976"]).
  { simpl. intros [H|[H|[H|[H|[]]]]]; discriminate H. }
  destruct (get_area_publish_task_cases _ Hnat) as (Hn & Hd & Hx).
  split; [exact Hnat|]. split; [exact Hn|]. split.
  - apply Hd. simpl. auto.
  - apply Hx; [discriminate|].
    simpl. intros [H|[H|[H|[H|[]]]]]; discriminate H.
Defined.

(** ** Worlds and traces *)

Local Open Scope list_scope.

Section WorldFacts.

Context {Ext : Type}.
Implicit Types (w : World Ext) (t : list event).

Lemma new_events_app w w' t : trace w' = trace w ++ t -> new_events w w' = t.
Proof. intros E. unfold new_events. rewrite E. apply drop_app_length. Qed.

Lemma http_requests_app t1 t2 :
  http_requests (t1 ++ t2) = http_requests t1 ++ http_requests t2.
Proof.
  induction t1 as [|[c o] t1 IH]; [reflexivity|].
  destruct c; simpl; rewrite ?IH; reflexivity.
Qed.

Lemma created_dirs_app t1 t2 :
  created_dirs (t1 ++ t2) = created_dirs t1 ++ created_dirs t2.
Proof.
  induction t1 as [|[c o] t1 IH]; [reflexivity|].
  destruct c; simpl; rewrite ?IH; try reflexivity.
  destruct o; simpl; rewrite ?IH; reflexivity.
Qed.

End WorldFacts.

(** ** Selection of the resource *)

Section Selection.

Lemma matches_area_spec (area : string) (r : resource) :
  matches_area area r = true <-> stands_for area r.
Proof.
  unfold matches_area, stands_for, resource_title, PyStr.eqb.
  destruct (String.eqb_spec area "nat") as [->|Hne]; simpl;
    rewrite ?andb_false_r, ?orb_false_r, ?andb_true_iff, !String.eqb_eq;
    tauto.
Qed.

Lemma matches_area_false (area : string) (r : resource) :
  matches_area area r = false <-> ~ stands_for area r.
Proof.
  rewrite <- matches_area_spec. now destruct (matches_area area r).
Qed.

Lemma scan_resources_first (area : string) (pre post : list resource) (r : resource) :
  Forall (fun x => ~ stands_for area x) pre ->
  stands_for area r ->
  scan_resources area (pre ++ r :: post) = Some (res_id r).
Proof.
  intros Hpre Hr. induction Hpre as [|x pre Hx _ IH]; simpl.
  - apply matches_area_spec in Hr. now rewrite Hr.
  - apply matches_area_false in Hx. now rewrite Hx.
Qed.

Lemma scan_resources_None (area : string) (rs : list resource) :
  scan_resources area rs = None <-> Forall (fun r => ~ stands_for area r) rs.
Proof.
  induction rs as [|r rs IH]; simpl.
  - split; [constructor | reflexivity].
  - destruct (matches_area area r) eqn:E.
    + split; [discriminate|]. intros H. inversion H as [|? ? Hr _]; subst.
      apply matches_area_spec in E. contradiction.
    + rewrite IH. split.
      * intros H. constructor; [now apply matches_area_false | exact H].
      * intros H. now inversion H.
Qed.

Lemma scan_resources_Some (area : string) (rs : list resource) (id : string) :
  scan_resources area rs = Some id ->
  exists r, In r rs /\ stands_for area r /\ res_id r = id.
Proof.
  induction rs as [|r rs IH]; simpl; [discriminate|].
  destruct (matches_area area r) eqn:E.
  - intros [= <-]. exists r. split; [now left|].
    split; [now apply matches_area_spec | reflexivity].
  - intros H. destruct (IH H) as (r' & Hin & Hs & Hid).
    exists r'. split; [now right | now split].
Qed.

End Selection.

Section Portal.

Context {Ext : Type} (svc : Services Ext).
Implicit Types (w : World Ext).

Lemma data_gouv_resource_id_served w dataset_id area rs :
  served svc w (dataset_request w dataset_id) rs ->
  data_gouv_resource_id svc dataset_id area w
  = (Ok (scan_resources area rs),
     record (Requests (dataset_request w dataset_id)) None
       (set_ext (fault svc (Requests (dataset_request w dataset_id)) (ext w)).2 w)).
Proof.
  intros [Hf Hr]. unfold data_gouv_resource_id, bind, environ_get, requests.
  fold (dataset_request w dataset_id).
  destruct (fault svc (Requests (dataset_request w dataset_id)) (ext w)) as [o x].
  simpl in Hf. subst o. rewrite Hr. reflexivity.
Qed.

End Portal.

(** C9. When the portal serves the resource list, [data_gouv_resource_id]
    returns the id of the first resource, in list order, that stands for
    the area, however many follow it; and it returns [None] exactly when
    no resource of the list has both the format and the title. *)
Theorem data_gouv_resource_id_first_match {Ext : Type} (svc : Services Ext)
  (w : World Ext) (dataset_id : option string) (area : string)
  (rs : list resource) :
  served svc w (dataset_request w dataset_id) rs ->
  (forall pre r post,
      rs = pre ++ r :: post ->
      Forall (fun x => ~ stands_for area x) pre ->
      stands_for area r ->
      (data_gouv_resource_id svc dataset_id area w).1 = Ok (Some (res_id r)))
  /\ ((data_gouv_resource_id svc dataset_id area w).1 = Ok None
      <-> Forall (fun r => ~ stands_for area r) rs).
Proof.
  intros Hs. rewrite (data_gouv_resource_id_served svc w dataset_id area rs Hs).
  simpl. split.
  - intros pre r post -> Hpre Hr. f_equal. now apply scan_resources_first.
  - rewrite <- scan_resources_None. split; [now intros [= ->] | now intros ->].
Qed.

Lemma data_gouv_resource_id_first_match_witness :
  served (scripted no_fault three_resources) empty_world
    (dataset_request empty_world None) three_resources
  /\ (data_gouv_resource_id (scripted no_fault three_resources) None "nat"
        empty_world).1 = Ok (Some "r1").
Proof.
  assert (Hs : served (scripted no_fault three_resources) empty_world
                 (dataset_request empty_world None) three_resources)
    by (split; reflexivity).
  split; [exact Hs|].
  apply (proj1 (data_gouv_resource_id_first_match _ _ None "nat" _ Hs)
           [mkResource "pdf" "Export National" "r0"]
           (mkResource "zip" "Export National" "r1")
           [mkResource "zip" "Export National" "r2"]).
  - reflexivity.
  - constructor; [|constructor]. intros [H _]. discriminate H.
  - split; reflexivity.
Defined.

(** ** Create or update *)

Section CreateOrUpdate.

Context {Ext : Type} (svc : Services Ext).
Implicit Types (w : World Ext).

Lemma update_resource_metadata_trace w ds rid title desc url size sha1 fmt_arg :
  exists put o,
    trace (update_resource_metadata svc ds rid title desc url size sha1 fmt_arg w).2
    = trace w
      ++ [(Print ("Updating resource " +:+ rid +:+ " in dataset " +:+ fmt ds), None);
          (Print ("Update URL: " +:+ resource_url w ds rid), None);
          (Requests put, o)]
    /\ req_method put = PUT
    /\ req_url put = resource_url w ds rid
    /\ field "format" (req_json put) = Some (default_arg (VBuiltin "zip") fmt_arg).
Proof.
  unfold update_resource_metadata, bind, environ_get, portal_headers, ret, emit,
    datetime_now, requests, resource_url.
  cbn.
  destruct (now svc (ext w)) as [t x]. cbn.
  match goal with
  | |- context [fault svc (Requests ?r) x] =>
      set (put := r); destruct (fault svc (Requests put) x) as [o x']
  end.
  exists put, o.
  destruct o as [e|]; [|destruct (negb (status_code (reply svc put x) =? 200))];
    cbn; rewrite <- !app_assoc; repeat split.
Qed.

Lemma data_gouv_create_resource_trace w ds title desc url size sha1 fmt_arg :
  exists post o,
    trace (data_gouv_create_resource svc ds title desc url size sha1 fmt_arg w).2
    = trace w ++ [(Requests post, o)]
    /\ req_method post = POST
    /\ req_url post = resources_url w ds
    /\ field "title" (req_json post) = Some (VStr title)
    /\ field "format" (req_json post) = Some (default_arg (VStr "zip") fmt_arg)
    /\ field "checksum" (req_json post)
       = Some (VDict [("type", VStr "sha1"); ("value", VStr sha1)]).
Proof.
  unfold data_gouv_create_resource, bind, environ_get, portal_headers, ret,
    datetime_now, requests, resources_url.
  cbn.
  destruct (now svc (ext w)) as [t x]. cbn.
  match goal with
  | |- context [fault svc (Requests ?r) x] =>
      set (post := r); destruct (fault svc (Requests post) x) as [o x']
  end.
  exists post, o.
  destruct o as [e|]; [|destruct (negb (status_code (reply svc post x) =? 201))];
    cbn; repeat split.
Qed.

(** The world [publish_on_data_gouv] leaves, by the outcome of the
    lookup. *)
Lemma publish_on_data_gouv_served w area url size sha1 fmt_arg rs :
  let ds := environ w !! "DATA_GOUV_DATASET_ID" in
  let get := dataset_request w ds in
  let w1 := record (Requests get) None (set_ext (fault svc (Requests get) (ext w)).2 w) in
  served svc w get rs ->
  (publish_on_data_gouv svc area url size sha1 fmt_arg w).2
  = match scan_resources area rs with
    | Some rid =>
        (update_resource_metadata svc ds rid (resource_title area)
           (resource_description area) url size sha1
           (Some (default_arg (VStr "zip") fmt_arg)) w1).2
    | None =>
        (data_gouv_create_resource svc ds (resource_title area)
           (resource_description area) url size sha1
           (Some (default_arg (VStr "zip") fmt_arg)) w1).2
    end.
Proof.
  intros ds get w1 Hs. unfold publish_on_data_gouv.
  unfold bind at 1, environ_get at 1. unfold bind at 1.
  fold ds. rewrite (data_gouv_resource_id_served svc w ds area rs Hs).
  fold get. fold w1. unfold bind, ret.
  destruct (scan_resources area rs) as [rid|].
  - destruct (update_resource_metadata svc ds rid _ _ url size sha1 _ w1) as [[b|e] w2];
      reflexivity.
  - destruct (data_gouv_create_resource svc ds _ _ url size sha1 _ w1) as [[b|e] w2];
      reflexivity.
Qed.

End CreateOrUpdate.

(** C4. When the portal serves the resource list: if some resource
    stands for the area (format "zip", derived title), the only requests
    [publish_on_data_gouv] sends are the listing and one PUT addressed to
    the id of such a resource, so nothing is created; if none does, they
    are the listing and exactly one POST carrying the derived title, the
    format "zip" and a checksum object of type "sha1". *)
Theorem publish_on_data_gouv_create_or_update {Ext : Type} (svc : Services Ext)
  (w : World Ext) (area public_url : string) (archive_size : Z)
  (archive_sha1 : string) (rs : list resource) :
  served svc w (dataset_request w (environ w !! "DATA_GOUV_DATASET_ID")) rs ->
  (Exists (stands_for area) rs ->
     exists r put,
       In r rs /\ stands_for area r
       /\ http_requests (new_events w
            (publish_on_data_gouv svc area public_url archive_size archive_sha1 None w).2)
          = [dataset_request w (environ w !! "DATA_GOUV_DATASET_ID"); put]
       /\ req_method put = PUT
       /\ req_url put = resource_url w (environ w !! "DATA_GOUV_DATASET_ID") (res_id r))
  /\ (Forall (fun r => ~ stands_for area r) rs ->
     exists post,
       http_requests (new_events w
         (publish_on_data_gouv svc area public_url archive_size archive_sha1 None w).2)
       = [dataset_request w (environ w !! "DATA_GOUV_DATASET_ID"); post]
       /\ req_method post = POST
       /\ req_url post = resources_url w (environ w !! "DATA_GOUV_DATASET_ID")
       /\ field "title" (req_json post) = Some (VStr (resource_title area))
       /\ field "format" (req_json post) = Some (VStr "zip")
       /\ field "checksum" (req_json post)
          = Some (VDict [("type", VStr "sha1"); ("value", VStr archive_sha1)])).
Proof.
  intros Hs.
  rewrite (publish_on_data_gouv_served svc w area public_url archive_size
             archive_sha1 None rs Hs).
  set (ds := environ w !! "DATA_GOUV_DATASET_ID").
  set (get := dataset_request w ds).
  set (w1 := record _ _ _).
  cbn [default_arg].
  split.
  - intros Hex.
    destruct (scan_resources area rs) as [rid|] eqn:Escan.
    + destruct (scan_resources_Some _ _ _ Escan) as (r & Hin & Hr & <-).
      destruct (update_resource_metadata_trace svc w1 ds (res_id r)
                  (resource_title area) (resource_description area) public_url
                  archive_size archive_sha1 (Some (VStr "zip")))
        as (put & o & Ht & Hm & Hu & _).
      exists r, put.
      split; [exact Hin|]. split; [exact Hr|]. split; [|split; assumption].
      erewrite new_events_app; [|rewrite Ht; unfold w1; cbn;
                                  rewrite <- app_assoc; reflexivity].
      reflexivity.
    + apply scan_resources_None in Escan. apply Exists_exists in Hex as (r & Hin & Hr).
      rewrite Forall_forall in Escan. destruct (Escan r Hin Hr).
  - intros Hall. apply scan_resources_None in Hall. rewrite Hall.
    destruct (data_gouv_create_resource_trace svc w1 ds
                (resource_title area) (resource_description area) public_url
                archive_size archive_sha1 (Some (VStr "zip")))
      as (post & o & Ht & Hm & Hu & Htitle & Hfmt & Hsum).
    exists post. split; [|repeat split; assumption].
    erewrite new_events_app; [|rewrite Ht; unfold w1; cbn;
                                rewrite <- app_assoc; reflexivity].
    reflexivity.
Qed.

Lemma publish_on_data_gouv_create_or_update_witness :
  served (scripted no_fault three_resources) empty_world
    (dataset_request empty_world (environ empty_world !! "DATA_GOUV_DATASET_ID"))
    three_resources
  /\ Exists (stands_for "nat") three_resources
  /\ exists r put,
       In r three_resources /\ stands_for "nat" r
       /\ http_requests (new_events empty_world
            (publish_on_data_gouv (scripted no_fault three_resources)
               "nat" "https://bucket.s3.fr-par.scw.cloud/opendata/RNB_nat.csv.zip"
               49 "7efff7fa7d54cf330dc2b13f28cd402a65eb2a4f" None empty_world).2)
          = [dataset_request empty_world (environ empty_world !! "DATA_GOUV_DATASET_ID"); put]
       /\ req_method put = PUT
       /\ req_url put
          = resource_url empty_world (environ empty_world !! "DATA_GOUV_DATASET_ID")
              (res_id r).
Proof.
  assert (Hs : served (scripted no_fault three_resources) empty_world
                 (dataset_request empty_world
                    (environ empty_world !! "DATA_GOUV_DATASET_ID"))
                 three_resources)
    by (split; reflexivity).
  assert (Hex : Exists (stands_for "nat") three_resources).
  { apply Exists_cons_tl, Exists_cons_hd. split; reflexivity. }
  split; [exact Hs|]. split; [exact Hex|].
  exact (proj1 (publish_on_data_gouv_create_or_update _ _ "nat" _ 49 _ _ Hs) Hex).
Defined.

(** The end-to-end case of a fresh dataset, run on scripted
    collaborators. *)
Example publish_on_data_gouv_fresh_75 :
  http_requests (new_events empty_world
    (publish_on_data_gouv (scripted no_fault []) "75"
       "https://bucket.s3.fr-par.scw.cloud/opendata/RNB_75.csv.zip"
       49 "7efff7fa7d54cf330dc2b13f28cd402a65eb2a4f" None empty_world).2)
  = [mkRequest GET "None/api/1/datasets/None/" [] VNone;
     mkRequest POST "None/api/1/datasets/None/resources/"
       [("X-API-KEY", VNone); ("Content-Type", VStr "application/json")]
       (VDict [("title", VStr "Export Départemental 75");
               ("description", VStr "Export du RNB au format csv pour le département 75.");
               ("type", VStr "main");
               ("url", VStr "https://bucket.s3.fr-par.scw.cloud/opendata/RNB_75.csv.zip");
               ("filetype", VStr "remote");
               ("format", VStr "zip");
               ("filesize", VInt 49);
               ("checksum", VDict [("type", VStr "sha1");
                                   ("value", VStr "7efff7fa7d54cf330dc2b13f28cd402a65eb2a4f")]);
               ("created_at", VStr "2025-03-26 11:20:00.000000")])].
Proof. vm_compute. reflexivity. Qed.

(** ** A program logic for the stages

    [keeps okev okpath m]: whatever its outcome, [m] only appends events
    that satisfy [okev] and only writes to paths that satisfy [okpath]. *)

Create HintDb keeps.

Section Keeping.

Context {Ext : Type} (svc : Services Ext).
Variables (okev : event -> Prop) (okpath : string -> Prop).
Implicit Types (w : World Ext).

Local Abbreviation evolves := (@evolves Ext okev okpath).
Local Abbreviation keeps := (@keeps Ext _ okev okpath).

Lemma evolves_refl w : evolves w w.
Proof.
  split; [|reflexivity]. exists []. split; [now rewrite app_nil_r | constructor].
Qed.

Lemma evolves_trans w1 w2 w3 : evolves w1 w2 -> evolves w2 w3 -> evolves w1 w3.
Proof.
  intros [(t1 & E1 & F1) K1] [(t2 & E2 & F2) K2]. split.
  - exists (t1 ++ t2). split.
    + now rewrite E2, E1, app_assoc.
    + now apply Forall_app.
  - intros k Hk. now rewrite K2, K1.
Qed.

Lemma evolves_record w c o : okev (c, o) -> evolves w (record c o w).
Proof.
  intros H. split; [|reflexivity].
  exists [(c, o)]. split; [reflexivity | now constructor].
Qed.

Lemma evolves_set_ext w x : evolves w (set_ext x w).
Proof.
  split; [|reflexivity]. exists []. split; [now rewrite app_nil_r | constructor].
Qed.

Lemma evolves_write w k v :
  okpath k -> evolves w (set_fs (<[k := v]> (fs w)) w).
Proof.
  intros Hk. split.
  - exists []. split; [now rewrite app_nil_r | constructor].
  - intros k' Hk'. simpl. apply lookup_insert_ne. congruence.
Qed.

(** *** Structure *)

Lemma keeps_ret {A} (a : A) : keeps (ret a).
Proof. intros w. apply evolves_refl. Qed.

Lemma keeps_raise {A} (e : exn) : keeps (@raise Ext A e).
Proof. intros w. apply evolves_refl. Qed.

Lemma keeps_lift {A} (r : result A) : keeps (lift r).
Proof. intros w. apply evolves_refl. Qed.

Lemma keeps_bind {A B} (m : M Ext A) (k : A -> M Ext B) :
  keeps m -> (forall a, keeps (k a)) -> keeps (bind m k).
Proof.
  intros Hm Hk w. unfold bind. specialize (Hm w).
  destruct (m w) as [[a|e] w1]; simpl in *; [|exact Hm].
  eapply evolves_trans; [exact Hm | apply Hk].
Qed.

Lemma keeps_try_finally {A} (body : M Ext A) (final : result A -> M Ext unit) :
  keeps body -> (forall r, keeps (final r)) -> keeps (try_finally body final).
Proof.
  intros Hb Hf w. unfold try_finally. specialize (Hb w).
  destruct (body w) as [r w1]. specialize (Hf r w1).
  destruct (final r w1) as [[u|e] w2]; simpl in *;
    eapply evolves_trans; eassumption.
Qed.

Lemma keeps_try_except {A} (body : M Ext A) (handler : exn -> M Ext A) :
  keeps body -> (forall e, keeps (handler e)) -> keeps (try_except body handler).
Proof.
  intros Hb Hh w. unfold try_except. specialize (Hb w).
  destruct (body w) as [[a|e] w1]; simpl in *; [exact Hb|].
  eapply evolves_trans; [exact Hb | apply Hh].
Qed.

Lemma keeps_if {A} (b : bool) (m1 m2 : M Ext A) :
  keeps m1 -> keeps m2 -> keeps (if b then m1 else m2).
Proof. now destruct b. Qed.

(** *** Primitives *)

Lemma keeps_call c : (forall o, okev (c, o)) -> keeps (call svc c).
Proof.
  intros H w. unfold call. destruct (fault svc c (ext w)) as [o x]. simpl.
  eapply evolves_trans; [apply (evolves_set_ext w x) | apply evolves_record, H].
Qed.

Lemma keeps_emit c : okev (c, None) -> keeps (@emit Ext c).
Proof. intros H w. now apply evolves_record. Qed.

Lemma keeps_environ_get name : keeps (@environ_get Ext name).
Proof. intros w. apply evolves_refl. Qed.

Lemma keeps_datetime_now : keeps (datetime_now svc).
Proof.
  intros w. unfold datetime_now. destruct (now svc (ext w)) as [t x].
  apply evolves_set_ext.
Qed.

Lemma keeps_os_listdir path : keeps (@os_listdir Ext path).
Proof.
  intros w. unfold os_listdir.
  destruct (fs w !! path) as [[|c]|]; apply evolves_refl.
Qed.

Lemma keeps_read_file path : keeps (@read_file Ext path).
Proof.
  intros w. unfold read_file.
  destruct (fs w !! path) as [[|c]|]; apply evolves_refl.
Qed.

Lemma keeps_os_path_getsize path : keeps (@os_path_getsize Ext path).
Proof.
  intros w. unfold os_path_getsize.
  destruct (fs w !! path) as [[|c]|]; apply evolves_refl.
Qed.

Lemma keeps_write_file path contents :
  okpath path -> keeps (@write_file Ext path contents).
Proof. intros H w. now apply evolves_write. Qed.

Lemma keeps_create_file path : okpath path -> keeps (@create_file Ext path).
Proof.
  intros H w. unfold create_file.
  destruct (parent_exists (fs w) path); [now apply evolves_write | apply evolves_refl].
Qed.

Lemma keeps_os_mkdir path :
  okpath path -> (forall o, okev (OsMkdir path, o)) -> keeps (os_mkdir svc path).
Proof.
  intros Hp He w. unfold os_mkdir.
  destruct (fs w !! path); [now apply evolves_record|].
  destruct (parent_exists (fs w) path); simpl; [|now apply evolves_record].
  destruct (fault svc (OsMkdir path) (ext w)) as [[e|] x]; simpl.
  - eapply evolves_trans; [apply (evolves_set_ext w x) | now apply evolves_record].
  - eapply evolves_trans; [apply (evolves_set_ext w x)|].
    eapply evolves_trans; [apply evolves_write, Hp | now apply evolves_record].
Qed.

Lemma keeps_shutil_rmtree path :
  (forall k, okpath k) -> (forall o, okev (ShutilRmtree path, o)) ->
  keeps (@shutil_rmtree Ext path).
Proof.
  intros Hp He w. unfold shutil_rmtree.
  destruct (fs w !! path) as [[|c]|]; simpl; try now apply evolves_record.
  split.
  - exists [(ShutilRmtree path, None)]. split; [reflexivity | now constructor].
  - intros k Hk. destruct (Hk (Hp k)).
Qed.

Lemma keeps_requests req : (forall o, okev (Requests req, o)) -> keeps (requests svc req).
Proof.
  intros H w. unfold requests. destruct (fault svc (Requests req) (ext w)) as [o x].
  simpl.
  eapply evolves_trans; [apply (evolves_set_ext w x) | apply evolves_record, H].
Qed.

End Keeping.

(** ** The stages under the logic *)

Section Stages.

Context {Ext : Type} (svc : Services Ext).
Variables (okev : event -> Prop) (okpath : string -> Prop) (v : pyval).
Hypothesis ok_stage : forall c o, stage_call c = true -> okev (c, o).
Hypothesis ok_request : forall req o, put_carries v req -> okev (Requests req, o).

Local Abbreviation keeps := (@keeps Ext _ okev okpath).

Local Hint Resolve keeps_ret keeps_raise keeps_lift keeps_bind keeps_if
  keeps_try_finally keeps_try_except keeps_call keeps_emit keeps_environ_get
  keeps_datetime_now keeps_os_listdir keeps_read_file keeps_os_path_getsize
  keeps_write_file keeps_create_file keeps_requests : keeps.

Ltac stage := intros; apply ok_stage; reflexivity.

Lemma keeps_with {A} (cm : manager) (body : M Ext A) :
  (forall p, cm = OpenW p \/ cm = ZipFileW p -> okpath p) ->
  keeps body -> keeps (with_ svc cm body).
Proof.
  intros Hp Hb. unfold with_.
  apply keeps_bind; [apply keeps_call; stage|]. intros _.
  apply keeps_bind.
  - destruct cm; simpl; auto with keeps.
  - intros _. apply keeps_try_finally; [exact Hb|].
    intros r. apply keeps_call. stage.
Qed.

Lemma keeps_copy_expert sql dest : okpath dest -> keeps (copy_expert svc sql dest).
Proof.
  intros Hp w. unfold copy_expert.
  destruct (fault svc (CursorCopyExpert sql dest) (ext w)) as [o x]. simpl.
  eapply evolves_trans; [apply (evolves_set_ext _ _ w x)|].
  eapply evolves_trans; [apply evolves_write, Hp|].
  apply evolves_record. stage.
Qed.

Lemma keeps_zip_write archive filename arcname :
  okpath archive -> keeps (zip_write svc archive filename arcname).
Proof.
  intros Hp. unfold zip_write. apply keeps_bind; [auto with keeps|].
  intros contents w.
  destruct (fault svc (ZipWrite archive filename arcname) (ext w)) as [o x]. simpl.
  eapply evolves_trans; [apply (evolves_set_ext _ _ w x)|].
  eapply evolves_trans; [apply evolves_write, Hp|].
  apply evolves_record. stage.
Qed.

Lemma keeps_sha1sum filename : keeps (@sha1sum Ext filename).
Proof. unfold sha1sum. auto with keeps. Qed.

Lemma keeps_create_csv directory_name code_area :
  okpath (file_path directory_name code_area +:+ ".csv") ->
  keeps (create_csv svc directory_name code_area).
Proof.
  intros Hp. unfold create_csv.
  apply keeps_with; [intros p [[= <-]|[=]]; exact Hp|].
  apply keeps_with; [intros p [[=]|[=]]|].
  apply keeps_with; [intros p [[=]|[=]]|].
  apply keeps_bind; [apply keeps_call; stage|].
  intros _. now apply keeps_copy_expert.
Qed.

Lemma keeps_create_archive directory_name code_area :
  okpath (file_path directory_name code_area +:+ ".csv.zip") ->
  keeps (create_archive svc directory_name code_area).
Proof.
  intros Hp. unfold create_archive.
  apply keeps_bind; [auto with keeps|]. intros _.
  apply keeps_bind.
  { apply keeps_with; [intros p [[=]|[= <-]]; exact Hp|].
    now apply keeps_zip_write. }
  intros _. apply keeps_bind; [auto with keeps|]. intros size.
  apply keeps_bind; [apply keeps_sha1sum|]. intros sha.
  apply keeps_bind; [apply keeps_emit; stage | auto with keeps].
Qed.

Lemma keeps_upload_to_s3 archive_path : keeps (upload_to_s3 svc archive_path).
Proof.
  unfold upload_to_s3.
  do 6 (apply keeps_bind; [apply keeps_environ_get|]; intros ?).
  apply keeps_bind; [apply keeps_call; stage|]. intros _.
  apply keeps_bind; [auto with keeps|]. intros size.
  apply keeps_bind; [auto with keeps|]. intros chunk.
  apply keeps_bind; [apply keeps_call; stage|]. intros _.
  apply keeps_bind; [apply keeps_call; stage | auto with keeps].
Qed.

Lemma keeps_portal_headers : keeps (@portal_headers Ext).
Proof. unfold portal_headers. auto with keeps. Qed.

Lemma keeps_data_gouv_resource_id dataset_id area :
  keeps (data_gouv_resource_id svc dataset_id area).
Proof.
  unfold data_gouv_resource_id.
  apply keeps_bind; [auto with keeps|]. intros base.
  apply keeps_bind; [|intros; auto with keeps].
  apply keeps_requests. intros o. apply ok_request. intros [=].
Qed.

Lemma keeps_data_gouv_create_resource ds title desc url size sha1 fmt_arg :
  keeps (data_gouv_create_resource svc ds title desc url size sha1 fmt_arg).
Proof.
  unfold data_gouv_create_resource.
  apply keeps_bind; [auto with keeps|]. intros base.
  apply keeps_bind; [apply keeps_portal_headers|]. intros headers.
  apply keeps_bind; [auto with keeps|]. intros t.
  apply keeps_bind; [|intros; auto with keeps].
  apply keeps_requests. intros o. apply ok_request. intros [=].
Qed.

Lemma keeps_update_resource_metadata ds rid title desc url size sha1 :
  keeps (update_resource_metadata svc ds rid title desc url size sha1 (Some v)).
Proof.
  unfold update_resource_metadata.
  apply keeps_bind; [auto with keeps|]. intros base.
  apply keeps_bind; [apply keeps_portal_headers|]. intros headers.
  apply keeps_bind; [apply keeps_emit; stage|]. intros _.
  apply keeps_bind; [apply keeps_emit; stage|]. intros _.
  apply keeps_bind; [auto with keeps|]. intros t.
  apply keeps_bind; [|intros; auto with keeps].
  apply keeps_requests. intros o. apply ok_request. intros _. reflexivity.
Qed.

Lemma keeps_publish_on_data_gouv area url size sha1 fmt_arg :
  default_arg (VStr "zip") fmt_arg = v ->
  keeps (publish_on_data_gouv svc area url size sha1 fmt_arg).
Proof.
  intros Hv. unfold publish_on_data_gouv. rewrite Hv.
  apply keeps_bind; [auto with keeps|]. intros ds.
  apply keeps_bind; [apply keeps_data_gouv_resource_id|]. intros [rid|].
  - apply keeps_bind; [apply keeps_update_resource_metadata | auto with keeps].
  - apply keeps_bind; [apply keeps_data_gouv_create_resource | auto with keeps].
Qed.

(** Everything the [try] suite does once the directory exists. *)
Lemma keeps_after_mkdir directory_name area :
  v = VStr "zip" ->
  okpath (file_path directory_name area +:+ ".csv") ->
  okpath (file_path directory_name area +:+ ".csv.zip") ->
  keeps (emit (Print ("Processing area: " +:+ area)) ;;
         create_csv svc directory_name area ;;
         let* archive := create_archive svc directory_name area in
         let '(archive_path, archive_size, archive_sha1) := archive in
         let* public_url := upload_to_s3 svc archive_path in
         publish_on_data_gouv svc area public_url archive_size archive_sha1 None ;;
         ret tt).
Proof.
  intros Hv Hcsv Hzip.
  apply keeps_bind; [apply keeps_emit; stage|]. intros _.
  apply keeps_bind; [now apply keeps_create_csv|]. intros _.
  apply keeps_bind; [now apply keeps_create_archive|]. intros [[path size] sha].
  apply keeps_bind; [apply keeps_upload_to_s3|]. intros url.
  apply keeps_bind; [now apply keeps_publish_on_data_gouv | auto with keeps].
Qed.

End Stages.

(** ** The workspace directory *)

Section Workspace.

Context {Ext : Type} (svc : Services Ext).
Implicit Types (w : World Ext).

Lemma prefix_length (a s : string) :
  String.prefix a s = true -> (String.length a <= String.length s)%nat.
Proof.
  intros H. apply prefix_spec in H as [r ->].
  clear. induction a; simpl; lia.
Qed.

Lemma under_irrefl (d : string) : under d d = false.
Proof.
  unfold under. destruct (String.prefix (d +:+ "/") d) eqn:E; [|reflexivity].
  apply prefix_length in E. rewrite length_append in E. simpl in E. lia.
Qed.

Lemma prefix_app_both (d a b : string) :
  String.prefix (d +:+ a) (d +:+ b) = String.prefix a b.
Proof.
  induction d as [|c d IH]; simpl; [reflexivity|].
  destruct (ascii_dec c c) as [_|Hne]; [exact IH | now destruct Hne].
Qed.

Lemma under_file_path (d area ext : string) :
  under d (file_path d area +:+ ext) = true.
Proof.
  unfold under, file_path. rewrite !append_assoc.
  rewrite prefix_app_both. reflexivity.
Qed.

Lemma prune_lookup_Some (d k : string) (m : gmap string node) (v : node) :
  prune d m !! k = Some v <-> m !! k = Some v /\ k <> d /\ under d k = false.
Proof. unfold prune. rewrite map_lookup_filter_Some. simpl. tauto. Qed.

Lemma prune_absent (d : string) (m : gmap string node) : absent (prune d m) d.
Proof.
  split.
  - destruct (prune d m !! d) eqn:E; [|reflexivity].
    apply prune_lookup_Some in E as (_ & Hne & _). now destruct Hne.
  - intros k Hk. destruct (prune d m !! k) eqn:E; [|reflexivity].
    apply prune_lookup_Some in E as (_ & _ & Hu). congruence.
Qed.

Lemma absent_shrink (m m' : gmap string node) (d : string) :
  (forall k v, m' !! k = Some v -> m !! k = Some v) -> absent m d -> absent m' d.
Proof.
  intros Hsub [Hd Hu]. split.
  - destruct (m' !! d) eqn:E; [|reflexivity]. apply Hsub in E. congruence.
  - intros k Hk. destruct (m' !! k) eqn:E; [|reflexivity].
    apply Hsub in E. rewrite (Hu k Hk) in E. discriminate.
Qed.

Lemma settles_refl w : settles w w.
Proof.
  split; [auto|]. exists []. split; [now rewrite app_nil_r | constructor].
Qed.

Lemma settles_trans w1 w2 w3 : settles w1 w2 -> settles w2 w3 -> settles w1 w3.
Proof.
  intros [S1 (t1 & E1 & A1)] [S2 (t2 & E2 & A2)]. split; [auto|].
  exists (t1 ++ t2). split; [now rewrite E2, E1, app_assoc|].
  rewrite created_dirs_app. apply Forall_app. split; [|exact A2].
  eapply Forall_impl; [exact A1|]. intros d. now apply absent_shrink.
Qed.

Lemma settles_record w c o :
  created_dirs [(c, o)] = [] -> settles w (record c o w).
Proof.
  intros H. split; [auto|]. exists [(c, o)]. split; [reflexivity|].
  rewrite H. constructor.
Qed.

Lemma created_dirs_nothing (t : list event) :
  Forall creates_nothing t -> created_dirs t = [].
Proof.
  induction 1 as [|ev t H _ IH]; [reflexivity|].
  change (ev :: t) with ([ev] ++ t). rewrite created_dirs_app, H, IH. reflexivity.
Qed.

Lemma stage_call_creates_nothing c o : stage_call c = true -> creates_nothing (c, o).
Proof. destruct c; try discriminate; reflexivity. Qed.

Lemma create_directory_cases area w :
  match create_directory svc area w with
  | (Ok d, w1) =>
      fs w !! d = None /\ fs w1 = <[d := Dir]> (fs w)
      /\ trace w1 = trace w ++ [(OsMkdir d, None)]
  | (Raised e, w1) =>
      fs w1 = fs w /\ exists d, trace w1 = trace w ++ [(OsMkdir d, Some e)]
  end.
Proof.
  unfold create_directory, bind, datetime_now, os_mkdir, ret.
  destruct (now svc (ext w)) as [t x]. cbn.
  set (d := "datagouvfr_publication_" +:+ area +:+ "_" +:+ stamp t).
  destruct (fs w !! d) eqn:E; cbn.
  - split; [reflexivity|]. now exists d.
  - destruct (parent_exists (fs w) d); cbn;
      [|split; [reflexivity|]; now exists d].
    destruct (fault svc (OsMkdir d) x) as [[e|] x']; cbn.
    + split; [reflexivity|]. now exists d.
    + auto.
Qed.

(** Removing the tree never adds an entry, and logs one event. *)
Lemma cleanup_settles (dn : option string) w :
  settles w ((let* d := load_local "directory_name" dn in
              cleanup_directory d) w).2.
Proof.
  destruct dn as [d|]; cbn; [|apply settles_refl].
  unfold cleanup_directory, shutil_rmtree.
  destruct (fs w !! d) as [[|c]|]; cbn; try (now apply settles_record).
  split.
  - cbn. intros k v' H. now apply prune_lookup_Some in H.
  - exists [(ShutilRmtree d, None)]. split; [reflexivity | constructor].
Qed.

Lemma except_finally_world area (r : result unit) (dn : option string) w :
  (except_finally area r dn w).2
  = ((let* d := load_local "directory_name" dn in cleanup_directory d)
       match r with
       | Ok _ => w
       | Raised e =>
           record (LoggingError ("Error while publishing the RNB for area "
                                 +:+ area +:+ " on data.gouv.fr: " +:+ str_exn e))
             None w
       end).2.
Proof.
  unfold except_finally, try_finally, try_except, lift.
  set (final := let* d := load_local "directory_name" dn in cleanup_directory d).
  destruct r as [u|e].
  - destruct (final w) as [[u'|e'] w']; reflexivity.
  - unfold bind at 1, emit, raise.
    match goal with
    | |- context [final ?w'] => destruct (final w') as [[u'|e'] w'']
    end; reflexivity.
Qed.

(** One iteration of the loop, up to and including its cleanup. *)
Lemma iteration_settles area (dn : option string) w :
  let '(r, assigned, w1) := try_suite svc area w in
  settles w (except_finally area r
               match assigned with Some d => Some d | None => dn end w1).2.
Proof.
  unfold try_suite. pose proof (create_directory_cases area w) as Hc.
  destruct (create_directory svc area w) as [[d|e] w1].
  - destruct Hc as (Hfresh & Hfs & Htr).
    match goal with
    | |- context [bind ?m ?k w1] => set (suite := bind m k)
    end.
    assert (Hk : keeps creates_nothing (fun k => under d k = true) suite).
    { apply (keeps_after_mkdir svc _ _ (VStr "zip")).
      - intros c o. apply stage_call_creates_nothing.
      - reflexivity.
      - reflexivity.
      - apply under_file_path.
      - apply under_file_path. }
    specialize (Hk w1). destruct (suite w1) as [r w2]. cbn in Hk.
    destruct Hk as [(t & Ht & Hnone) Hframe].
    rewrite except_finally_world.
    set (w2' := match r with Ok _ => w2 | Raised e => record _ None w2 end).
    assert (Hfs2 : fs w2' = fs w2) by (destruct r; reflexivity).
    assert (Htr2 : exists t', trace w2' = trace w2 ++ t' /\ created_dirs t' = []).
    { destruct r; [exists []; now rewrite app_nil_r | now eexists [_]]. }
    destruct Htr2 as (t' & Ht' & Hnone').
    assert (Hd : fs w2' !! d = Some Dir).
    { rewrite Hfs2, Hframe, Hfs; [apply lookup_insert_eq|].
      rewrite under_irrefl. discriminate. }
    clearbody w2'. cbn. unfold cleanup_directory, shutil_rmtree. rewrite Hd. cbn. split.
    + intros k x Hkx. apply prune_lookup_Some in Hkx as (Hkx & Hne & Hu).
      rewrite Hfs2, Hframe, Hfs in Hkx by congruence.
      now rewrite lookup_insert_ne in Hkx.
    + exists ([(OsMkdir d, None)] ++ t ++ t' ++ [(ShutilRmtree d, None)]).
      split.
      * cbn. rewrite Ht', Ht, Htr, <- !app_assoc. reflexivity.
      * rewrite !created_dirs_app, (created_dirs_nothing _ Hnone), Hnone'.
        cbn. constructor; [apply prune_absent | constructor].
  - destruct Hc as (Hfs & d & Htr).
    rewrite except_finally_world.
    eapply settles_trans; [|apply cleanup_settles].
    eapply settles_trans; [|apply settles_record; reflexivity].
    split; [now rewrite Hfs|].
    exists [(OsMkdir d, Some e)]. split; [exact Htr | constructor].
Qed.

Lemma publish_loop_settles areas (dn : option string) w :
  settles w (publish_loop svc areas dn w).2.
Proof.
  revert dn w. induction areas as [|area rest IH]; intros dn w.
  - apply settles_refl.
  - cbn [publish_loop]. pose proof (iteration_settles area dn w) as Hi.
    destruct (try_suite svc area w) as [[r assigned] w1].
    unfold bind.
    destruct (except_finally area r _ w1) as [[u|e] w3]; cbn in Hi |- *.
    + eapply settles_trans; [exact Hi | apply IH].
    + exact Hi.
Qed.

Lemma publish_settles areas w : settles w (publish svc areas w).2.
Proof.
  unfold publish, bind, emit.
  eapply settles_trans; [|apply publish_loop_settles].
  now apply settles_record.
Qed.

End Workspace.

(** C1. Whatever the area list, the collaborators and the outcome of each
    stage (creation of the directory, extraction, archiving, upload,
    publication), once [publish] has returned or raised every directory
    it created is gone from the filesystem, with everything below it. *)
Theorem publish_removes_workspaces {Ext : Type} (svc : Services Ext)
  (areas_list : list string) (w : World Ext) :
  trace (publish svc areas_list w).2
  = trace w ++ new_events w (publish svc areas_list w).2
  /\ Forall (absent (fs (publish svc areas_list w).2))
       (created_dirs (new_events w (publish svc areas_list w).2)).
Proof.
  destruct (publish_settles svc areas_list w) as [_ (t & Ht & Habs)].
  rewrite (new_events_app _ _ _ Ht). split; assumption.
Qed.

(** ** The format sent to the portal *)

Section Format.

Context {Ext : Type} (svc : Services Ext).
Variable P : request -> Prop.
Implicit Types (w : World Ext).

Local Abbreviation keeps := (@keeps Ext _ (request_event P) (fun _ => True)).

Lemma request_event_other c o : (forall req, c <> Requests req) -> request_event P (c, o).
Proof. intros H. destruct c; try exact I. now destruct (H req). Qed.

Lemma request_event_requests (t : list event) :
  Forall (request_event P) t -> Forall P (http_requests t).
Proof.
  induction 1 as [|[c o] t H _ IH]; [constructor|].
  destruct c; simpl; try exact IH. now constructor.
Qed.

Hypothesis P_zip : forall req, put_carries (VStr "zip") req -> P req.

Lemma keeps_create_directory area : keeps (create_directory svc area).
Proof.
  unfold create_directory.
  apply keeps_bind; [apply keeps_datetime_now|]. intros t.
  apply keeps_bind; [|intros; apply keeps_ret].
  apply keeps_os_mkdir; [exact I|]. intros o. now apply request_event_other.
Qed.

Lemma try_suite_evolves area w :
  evolves (request_event P) (fun _ => True) w (try_suite svc area w).2.
Proof.
  unfold try_suite. pose proof (keeps_create_directory area w) as Hc.
  destruct (create_directory svc area w) as [[d|e] w1]; cbn in Hc; [|exact Hc].
  match goal with
  | |- context [bind ?m ?k w1] => set (suite := bind m k)
  end.
  assert (Hk : keeps suite).
  { apply (keeps_after_mkdir svc _ _ (VStr "zip")); try exact I; try reflexivity.
    - intros c o Hc'. apply request_event_other. intros req ->. discriminate.
    - intros req o. apply P_zip. }
  specialize (Hk w1). destruct (suite w1) as [r w2].
  eapply evolves_trans; [exact Hc | exact Hk].
Qed.

Lemma keeps_except_finally area r dn : keeps (except_finally area r dn).
Proof.
  unfold except_finally. apply keeps_try_finally.
  - apply keeps_try_except; [apply keeps_lift|]. intros e.
    apply keeps_bind; [now apply keeps_emit | intros; apply keeps_raise].
  - intros _. apply keeps_bind.
    + destruct dn; [apply keeps_ret | apply keeps_raise].
    + intros d. apply keeps_shutil_rmtree; [exact (fun _ => I)|].
      intros o. now apply request_event_other.
Qed.

Lemma keeps_publish_loop areas dn : keeps (publish_loop svc areas dn).
Proof.
  revert dn. induction areas as [|area rest IH]; intros dn w.
  - apply evolves_refl.
  - cbn [publish_loop]. pose proof (try_suite_evolves area w) as Ht.
    destruct (try_suite svc area w) as [[r assigned] w1]. cbn in Ht.
    eapply evolves_trans; [exact Ht|].
    apply keeps_bind; [apply keeps_except_finally | intros _; apply IH].
Qed.

Lemma keeps_publish areas : keeps (publish svc areas).
Proof.
  unfold publish. apply keeps_bind; [now apply keeps_emit|].
  intros _. apply keeps_publish_loop.
Qed.

End Format.

(** C8. Left to its default, the format parameter of
    [update_resource_metadata] is the builtin [zip] object, not the string
    "zip", and that object is what the body handed to the HTTP client
    carries; the call site in [publish_on_data_gouv] always passes its own
    format, and over a whole run of [publish] every PUT carries the string
    "zip", so the default is never used. *)
Theorem update_resource_metadata_default_format {Ext : Type} (svc : Services Ext)
  (w : World Ext) :
  (forall ds rid title desc url size sha1,
      exists put,
        http_requests (new_events w
          (update_resource_metadata svc ds rid title desc url size sha1 None w).2)
        = [put]
        /\ req_method put = PUT
        /\ field "format" (req_json put) = Some (VBuiltin "zip")
        /\ VBuiltin "zip" <> VStr "zip")
  /\ (forall area url size sha1 fmt_arg,
         Forall (put_carries (default_arg (VStr "zip") fmt_arg))
           (http_requests (new_events w
              (publish_on_data_gouv svc area url size sha1 fmt_arg w).2)))
  /\ (forall areas_list,
         Forall sends_zip_string
           (http_requests (new_events w (publish svc areas_list w).2))).
Proof.
  split; [|split].
  - intros ds rid title desc url size sha1.
    destruct (update_resource_metadata_trace svc w ds rid title desc url size sha1 None)
      as (put & o & Ht & Hm & _ & Hf).
    exists put. rewrite (new_events_app _ _ _ Ht).
    repeat split; [exact Hm | exact Hf | discriminate].
  - intros area url size sha1 fmt_arg.
    set (v := default_arg (VStr "zip") fmt_arg).
    assert (Hk : keeps (request_event (put_carries v)) (fun _ => True)
                   (publish_on_data_gouv svc area url size sha1 fmt_arg)).
    { apply (keeps_publish_on_data_gouv svc _ _ v); [|auto|reflexivity].
      intros c o Hc. apply request_event_other. intros req ->. discriminate. }
    destruct (Hk w) as [(t & Ht & Hall) _].
    rewrite (new_events_app _ _ _ Ht). now apply request_event_requests.
  - intros areas_list.
    destruct (keeps_publish svc sends_zip_string (fun _ H => H) areas_list w)
      as [(t & Ht & Hall) _].
    rewrite (new_events_app _ _ _ Ht). now apply request_event_requests.
Qed.

(** ** Chunked hashing *)

Section Chunking.

Import SHA1.
Implicit Types (h : chaining) (s : Hasher) (p data a b f : list Byte.byte).

Lemma update_nil s : update s [] = s.
Proof. destruct s as [h p n]. unfold update. simpl. now rewrite Z.add_0_r. Qed.

(** Feeding [a] then [b] is feeding [a ++ b]. *)
Lemma update_app s a b : update (update s a) b = update s (a ++ b).
Proof.
  unfold update. rewrite fold_left_app.
  destruct (fold_left feed a (chain s, pending s)) as [h1 p1]. simpl.
  destruct (fold_left feed b (h1, p1)) as [h2 p2].
  f_equal. rewrite length_app, Nat2Z.inj_add. lia.
Qed.

Lemma process_blocks_unfold h data :
  process_blocks h data
  = if (BLOCK <=? length data)%nat
    then process_blocks (compress h (take BLOCK data)) (drop BLOCK data)
    else h.
Proof.
  funelim (process_blocks h data); rewrite e; reflexivity.
Qed.

(** The byte-wise buffer and the block-wise fold compute the same
    chaining value. *)
Lemma feed_process_blocks data h p :
  (length p < BLOCK)%nat ->
  (fold_left feed data (h, p)).1 = process_blocks h (p ++ data).
Proof.
  revert h p. induction data as [|x data IH]; intros h p Hp.
  - rewrite app_nil_r, process_blocks_unfold.
    apply Nat.leb_gt in Hp. now rewrite Hp.
  - cbn [fold_left feed].
    destruct (length (p ++ [x]) =? BLOCK)%nat eqn:E.
    + apply Nat.eqb_eq in E.
      rewrite (IH _ []) by (unfold BLOCK; simpl; lia).
      rewrite (process_blocks_unfold h (p ++ x :: data)).
      replace (p ++ x :: data) with ((p ++ [x]) ++ data)
        by now rewrite <- app_assoc.
      rewrite length_app, E, (proj2 (Nat.leb_le _ _)) by lia.
      rewrite <- E, take_app_length, drop_app_length. reflexivity.
    + apply Nat.eqb_neq in E. rewrite length_app in E. simpl in E.
      rewrite IH by (rewrite length_app; simpl; lia).
      now rewrite <- app_assoc.
Qed.

Lemma hexdigest_update_new data :
  hexdigest (update new data) = sha1_single_pass data.
Proof.
  unfold hexdigest, sha1_single_pass, update, new. cbn [chain pending count].
  destruct (fold_left feed data (iv, [])) as [h p] eqn:E.
  cbn [chain pending count]. rewrite Z.add_0_l, <- E, <- fold_left_app.
  f_equal. apply (feed_process_blocks _ iv []). unfold BLOCK. simpl. lia.
Qed.

(** The loop feeds the hasher exactly the bytes of the file, whatever
    the (positive) size of the buffer and whatever the buffer held. *)
Lemma read_loop_update s b f :
  (0 < length b)%nat -> read_loop s b f = update s f.
Proof.
  funelim (read_loop s b f); intros Hb.
  - match goal with
    | E : length (take _ _) = 0%nat |- _ => rewrite length_take in E;
        assert (f0 = []) as -> by (apply length_zero_iff_nil; lia)
    end.
    now rewrite update_nil.
  - match goal with
    | IH : _ -> read_loop _ _ _ = _, E : length (take _ _) = S _ |- _ =>
        rewrite IH by (rewrite length_app; lia); rewrite <- E
    end.
    rewrite take_app_length, update_app, take_drop. reflexivity.
Qed.

Lemma sha1sum_of_single_pass (contents : list Byte.byte) :
  sha1sum_of contents = sha1_single_pass contents.
Proof.
  unfold sha1sum_of. rewrite read_loop_update.
  - apply hexdigest_update_new.
  - rewrite repeat_length. unfold BUFFER_SIZE. lia.
Qed.

End Chunking.

(** C3. For every file, whatever its length (multiple of the 128 KiB
    buffer or not), [sha1sum] reading it in fixed-size chunks returns the
    hexadecimal digest that a single pass of SHA-1 over the whole contents
    gives. *)
Theorem sha1sum_chunking_correct {Ext : Type} (w : World Ext) (filename : string)
  (contents : list Byte.byte) :
  fs w !! filename = Some (File contents) ->
  sha1sum filename w = (Ok (SHA1.sha1_single_pass contents), w).
Proof.
  intros Hf. unfold sha1sum, bind, read_file, ret. rewrite Hf.
  now rewrite sha1sum_of_single_pass.
Qed.

Lemma sha1sum_chunking_correct_witness :
  fs (mkWorld {[ "RNB_75.csv.zip" := File (bytes_of_string "abc") ]} ∅ [] tt)
    !! "RNB_75.csv.zip" = Some (File (bytes_of_string "abc"))
  /\ sha1sum "RNB_75.csv.zip"
       (mkWorld {[ "RNB_75.csv.zip" := File (bytes_of_string "abc") ]} ∅ [] tt)
     = (Ok (SHA1.sha1_single_pass (bytes_of_string "abc")),
        mkWorld {[ "RNB_75.csv.zip" := File (bytes_of_string "abc") ]} ∅ [] tt).
Proof.
  split; [reflexivity|].
  apply sha1sum_chunking_correct. reflexivity.
Defined.

(** The model agrees with the published test vectors of SHA-1, both as a
    streaming object and in one pass, also when the reads are much
    shorter than the message. *)
Example sha1_vectors :
  SHA1.hexdigest SHA1.new = "da39a3ee5e6b4b0d3255bfef95601890afd80709"
  /\ SHA1.sha1_single_pass (bytes_of_string "abc")
     = "a9993e364706816aba3e25717850c26c9cd0d89d"
  /\ sha1sum_of (bytes_of_string "abc") = "a9993e364706816aba3e25717850c26c9cd0d89d"
  /\ SHA1.hexdigest
       (read_loop SHA1.new (repeat Byte.x00 5)
          (bytes_of_string "abcdbcdecdefdefgefghfghighijhijkijkljklmklmnlmnomnopnopq"))
     = "84983e441c3bd26ebaae4aa1f95129e5e54670f1".
Proof. vm_compute. repeat split. Qed.

(** ** Worked runs of [publish] *)

(** A successful run and a run whose upload fails both create the
    workspace of the area and leave an empty filesystem. *)
Example publish_75_workspace :
  let ok := publish (scripted no_fault []) ["75"] empty_world in
  let ko := publish (scripted upload_fails []) ["75"] empty_world in
  ok.1 = Ok true
  /\ created_dirs (trace ok.2) = [workspace_75]
  /\ fs ok.2 = ∅
  /\ ko.1 = Raised (Foreign "S3UploadFailedError" "Failed to upload")
  /\ created_dirs (trace ko.2) = [workspace_75]
  /\ fs ko.2 = ∅.
Proof. vm_compute. repeat split. Qed.

(** C10. On the empty list [publish] returns [True]; the filesystem and
    the collaborators are left as they were and the only event is the
    line printed before the loop: no directory, no query, no upload, no
    request. *)
Theorem publish_empty_list {Ext : Type} (svc : Services Ext) (w : World Ext) :
  publish svc [] w
  = (Ok true,
     mkWorld (fs w) (environ w)
       (trace w ++ [(Print "0 area(s) to process...", None)]) (ext w)).
Proof. reflexivity. Qed.

(** ** Multipart sizing *)

(** The part sizes of the representative archive sizes (1 MB and 5 GB,
    decimal and binary) keep the transfer within [MAX_PARTS] parts. *)
Example part_size_representative :
  part_size 1000000 = Ok 1200 /\ parts_needed 1000000 1200 = 834
  /\ part_size 1048576 = Ok 1258 /\ parts_needed 1048576 1258 = 834
  /\ part_size 5000000000 = Ok 6000000 /\ parts_needed 5000000000 6000000 = 834
  /\ part_size 5368709120 = Ok 6442450 /\ parts_needed 5368709120 6442450 = 834.
Proof. vm_compute. repeat split. Qed.

(** C2 (evaluation of the code where the claim fails). An archive of
    1001 bytes gets parts of one byte, hence 1001 parts, above
    [MAX_PARTS]; so does the size 1666, and the sizes 2499, 3333 and
    4166 exceed the ceiling as well. *)
Theorem part_size_small_archive :
  part_size 1001 = Ok 1
  /\ 1001 / 1 = 1001
  /\ parts_needed 1001 1 = 1001
  /\ MAX_PARTS < parts_needed 1001 1
  /\ part_size 1666 = Ok 1 /\ MAX_PARTS < 1666 / 1
  /\ part_size 2499 = Ok 2 /\ MAX_PARTS < 2499 / 2
  /\ part_size 3333 = Ok 3 /\ MAX_PARTS < 3333 / 3
  /\ part_size 4166 = Ok 4 /\ MAX_PARTS < 4166 / 4.
Proof. vm_compute. repeat split. Qed.

(** ** Failure of a stage *)

Section Reraise.

Context {Ext : Type} (svc : Services Ext).
Implicit Types (w : World Ext).

(** Once created, the directory is still there when the [try] suite
  ends. *)
Lemma try_suite_directory area w r d w2 :
try_suite svc area w = (r, Some d, w2) -> fs w2 !! d = Some Dir.
Proof.
unfold try_suite. pose proof (create_directory_cases svc area w) as Hc.
destruct (create_directory svc area w) as [[d'|e] w1]; [|discriminate].
destruct Hc as (_ & Hfs & _).
match goal with
| |- context [bind ?m ?k w1] => set (suite := bind m k)
end.
assert (Hk : keeps creates_nothing (fun k => under d' k = true) suite).
{ apply (keeps_after_mkdir svc _ _ (VStr "zip")).
  - intros c o. apply stage_call_creates_nothing.
  - reflexivity.
  - reflexivity.
  - apply under_file_path.
  - apply under_file_path. }
specialize (Hk w1). destruct (suite w1) as [r' w2']. cbn in Hk.
destruct Hk as [_ Hframe]. intros [= <- <- <-].
rewrite Hframe, Hfs; [apply lookup_insert_eq|].
rewrite under_irrefl. discriminate.
Qed.

(** An exception raised after the directory was created is logged, the
  directory is removed, and that same exception leaves [publish_loop]:
  the remaining areas are not processed. *)
Lemma publish_loop_reraises area rest (dn : option string) w e d w2 :
try_suite svc area w = (Raised e, Some d, w2) ->
publish_loop svc (area :: rest) dn w
= (Raised e,
   record (ShutilRmtree d) None
     (set_fs (prune d (fs w2))
        (record (LoggingError ("Error while publishing the RNB for area "
                               +:+ area +:+ " on data.gouv.fr: " +:+ str_exn e))
           None w2))).
Proof.
intros Ht. pose proof (try_suite_directory _ _ _ _ _ Ht) as Hd.
cbn [publish_loop]. rewrite Ht.
unfold bind at 1, except_finally, try_finally, try_except, lift, emit, raise.
cbn. unfold cleanup_directory, shutil_rmtree. cbn. rewrite Hd. reflexivity.
Qed.

End Reraise.

(** C7 (evaluation of the code where the claim fails). When the
    directory of the first area cannot be created (the operating system
    refuses, or the area holds a separator and the parent directory does
    not exist), the error is logged and re-raised, but the cleanup reads
    the unbound [directory_name]: [publish] ends with [UnboundLocalError]
    instead of the error raised.  When it is the directory of a later
    area, the cleanup is applied to the directory of the previous area,
    already removed, and [publish] ends with [FileNotFoundError] naming
    that directory. *)
Theorem publish_masks_create_directory_error :
  let first := publish (scripted deny_mkdir []) ["75"] empty_world in
  let slash := publish (scripted no_fault []) ["a/b"] empty_world in
  let later := publish (scripted deny_mkdir_2A []) ["75"; "2A"] empty_world in
  first.1 = Raised (UnboundLocalError "directory_name")
  /\ new_events empty_world first.2
     = [(Print "1 area(s) to process...", None);
        (OsMkdir workspace_75,
         Some (Foreign "PermissionError"
                 ("[Errno 13] Permission denied: '" +:+ workspace_75 +:+ "'")));
        (LoggingError
           ("Error while publishing the RNB for area 75 on data.gouv.fr: "
            +:+ "[Errno 13] Permission denied: '" +:+ workspace_75 +:+ "'"),
         None)]
  /\ slash.1 = Raised (UnboundLocalError "directory_name")
  /\ new_events empty_world slash.2
     = [(Print "1 area(s) to process...", None);
        (OsMkdir "datagouvfr_publication_a/b_2025-03-26_11-20-00",
         Some (FileNotFoundError "datagouvfr_publication_a/b_2025-03-26_11-20-00"));
        (LoggingError
           ("Error while publishing the RNB for area a/b on data.gouv.fr: "
            +:+ "[Errno 2] No such file or directory: "
            +:+ "'datagouvfr_publication_a/b_2025-03-26_11-20-00'"),
         None)]
  /\ later.1 = Raised (FileNotFoundError workspace_75)
  /\ last (trace later.2)
     = Some (ShutilRmtree workspace_75, Some (FileNotFoundError workspace_75)).
Proof. vm_compute. repeat split. Qed.
